(** * Saudi Health Analytics front-end (assets/js/app.js)

    A shallow embedding of the three cooperating pieces of the dashboard
    script: the [APIClient] (a wrapper around [fetch]), the
    [AnalyticsEngine] (ratio helpers and a cache with a time-to-live) and
    the refresh routine of [HealthWorkforceApp].

    - JavaScript numbers are IEEE 754 binary64 values: they are the kernel's
      primitive floats, so every arithmetic result below is the one the
      script computes, rounding included.
    - Millisecond timestamps ([Date.now()]) and time-to-live values are
      integers far below 2^53, where binary64 arithmetic is exact; they are
      modelled in [Z].
    - Objects used as dictionaries (the record handed to the ratio helpers,
      the [options] of a request, header sets, the cache [Map]) are finite
      maps with string keys.
    - Asynchronous functions are programs of a small free monad whose nodes
      are the suspension points ([await]) and the observable effects. *)

From Stdlib Require Import Floats ZArith String List DecimalString Lia.
From stdpp Require Import gmap strings list.

Set Warnings "-register-all".
Local Open Scope string_scope.
Local Open Scope Z_scope.
Local Open Scope list_scope.

(** ** JavaScript values *)

Module JS.

(** The values that travel through the modelled code: primitives, and the
    arrays and objects a parsed JSON body is made of. *)
Inductive value : Type :=
| VUndefined
| VNull
| VBool (b : bool)
| VNum (x : float)
| VStr (s : string)
| VArr (items : list value)
| VObj (fields : list (string * value)).

(** [ToBoolean]: what [if (v)] and [!v] test. *)
Definition truthy (v : value) : bool :=
  match v with
  | VUndefined | VNull => false
  | VBool b => b
  | VNum x => negb (is_nan x || (x =? 0)%float)
  | VStr s => negb (String.eqb s "")
  | VArr _ | VObj _ => true
  end.

(** Property read on a dictionary-like object: a missing key reads as
    [undefined]. *)
Definition prop (o : gmap string value) (k : string) : value :=
  default VUndefined (o !! k).

(** An error object: [name] comes from the constructor's prototype,
    [message] is the own property set by the constructor. *)
Record js_error : Type := mk_error { err_name : string; err_message : string }.

(** [new Error(message)] *)
Definition new_Error (message : string) : js_error :=
  {| err_name := "Error"; err_message := message |}.

(** Reading a data property of an error object. [name] and [message] are
    the only ones such an object has; any other read, [status] for one,
    yields [undefined]. *)
Definition error_prop (e : js_error) (k : string) : value :=
  if String.eqb k "name" then VStr (err_name e)
  else if String.eqb k "message" then VStr (err_message e)
  else VUndefined.

(** Template-literal rendering of an integer. *)
Definition show_int (n : Z) : string := NilZero.string_of_int (Z.to_int n).

End JS.
Export JS.

(** ** AnalyticsEngine *)

Module AnalyticsEngine.

Section Ratios.

(** [ToNumber] on strings (the StringNumericLiteral grammar) and on arrays
    and objects (through [ToPrimitive]) is not modelled: it is taken as a
    parameter. Records whose fields are objects that shadow both [toString]
    and [valueOf] with non-callables are outside the model. *)
Variable ToNumber_other : value -> float.

Definition ToNumber (v : value) : float :=
  match v with
  | VUndefined => nan
  | VNull => 0%float
  | VBool true => 1%float
  | VBool false => 0%float
  | VNum x => x
  | _ => ToNumber_other v
  end.

(** [v > 0]: both operands go through [ToNumber]; a NaN operand makes the
    comparison false. *)
Definition gt_zero (v : value) : bool := (0 <? ToNumber v)%float.

(** [x / y] on values. *)
Definition js_div (x y : value) : float := (ToNumber x / ToNumber y)%float.

(**
<<
    calculateUtilizationRate(data) {
        const { filled, authorized } = data;
        return authorized > 0 ? (filled / authorized) * 100 : 0;
    }
>> *)
Definition calculateUtilizationRate (data : gmap string value) : float :=
  let filled := prop data "filled" in
  let authorized := prop data "authorized" in
  if gt_zero authorized then (js_div filled authorized * 100)%float else 0%float.

(**
<<
    calculateProductivityIndex(data) {
        const { workload, workforce } = data;
        return workforce > 0 ? workload / workforce : 0;
    }
>> *)
Definition calculateProductivityIndex (data : gmap string value) : float :=
  let workload := prop data "workload" in
  let workforce := prop data "workforce" in
  if gt_zero workforce then js_div workload workforce else 0%float.

(**
<<
    calculateCostEffectiveness(data) {
        const { totalCost, servicesDelivered } = data;
        return servicesDelivered > 0 ? totalCost / servicesDelivered : 0;
    }
>> *)
Definition calculateCostEffectiveness (data : gmap string value) : float :=
  let totalCost := prop data "totalCost" in
  let servicesDelivered := prop data "servicesDelivered" in
  if gt_zero servicesDelivered then js_div totalCost servicesDelivered else 0%float.


End Ratios.

(** *** Cache *)

(** The object stored under a key: [{ value, expiry }]. *)
Record cache_item : Type := mk_item { item_value : value; item_expiry : Z }.

(** [ttl = 300000]: the default applies when the argument is left out. *)
Definition default_ttl : Z := 300000.

(**
<<
    setCacheItem(key, value, ttl = 300000) {
        this.cache.set(key, { value, expiry: Date.now() + ttl });
    }
>>
    [now] is the reading of [Date.now()]. *)
Definition setCacheItem (now : Z) (key : string) (v : value) (ttl : option Z)
    (cache : gmap string cache_item) : gmap string cache_item :=
  <[key := {| item_value := v; item_expiry := now + default default_ttl ttl |}]> cache.

(**
<<
    getCacheItem(key) {
        const item = this.cache.get(key);
        if (!item) return null;
        if (Date.now() > item.expiry) {
            this.cache.delete(key);
            return null;
        }
        return item.value;
    }
>>
    The result pairs the returned value with the store after the call. *)
Definition getCacheItem (now : Z) (key : string) (cache : gmap string cache_item)
    : value * gmap string cache_item :=
  match cache !! key with
  | None => (VNull, cache)
  | Some item =>
      if (now >? item_expiry item)%Z then (VNull, delete key cache)
      else (item_value item, cache)
  end.

(** [this.cache.has(key)] *)
Definition has (key : string) (cache : gmap string cache_item) : bool :=
  bool_decide (is_Some (cache !! key)).

End AnalyticsEngine.

(** ** Asynchronous programs *)

Module Async.

(** A value of the [init] object handed to [fetch]: the header set, or any
    other setting. *)
Inductive init_value : Type :=
| IHeaders (h : gmap string string)
| IValue (v : value).

(** What the transport gives back for a response. [body] is what
    [response.json()] settles to: the parsed value, or the parser's error. *)
Record response : Type := mk_response {
  status : Z;
  statusText : string;
  body : js_error + value
}.

(** [response.ok], as the Fetch standard defines it: a status in 200..299. *)
Definition ok (r : response) : bool :=
  ((200 <=? status r)%Z && (status r <=? 299)%Z)%bool.

(** How the promise returned by [fetch] settles: rejected at network level,
    or fulfilled with a response (whatever its status). *)
Inductive fetch_outcome : Type :=
| NetworkFailure (e : js_error)
| Responded (r : response).

(** The parts of the page the refresh routine renders into. *)
Inductive view : Type := DashboardMetrics | TrainingMetrics | ProjectionCharts.

(** Observable effects other than network calls. *)
Inductive effect : Type :=
| ConsoleLog (msg : string)
| ConsoleError (msg : string) (e : js_error)
| StoreDashboard (v : value)
| StoreLastUpdated
| Render (w : view) (v : value)
| ShowNotification (message : string) (type : string) (duration : Z)
| ButtonDisabled (b : bool)
| ButtonLabel (html : string)
| SetTimeout (ms : Z) (callback : effect).

(** An asynchronous function body. [AwaitFetch] is [await fetch(url, init)]:
    the rest of the body is a continuation that runs once the promise has
    settled. [Await] is any other suspension point. *)
Inductive prog (A : Type) : Type :=
| Ret (a : A)
| Throw (e : js_error)
| Do (ev : effect) (k : prog A)
| AwaitFetch (url : string) (init : gmap string init_value) (k : fetch_outcome -> prog A)
| Await (k : prog A).

Arguments Ret {A} a.
Arguments Throw {A} e.
Arguments Do {A} ev k.
Arguments AwaitFetch {A} url init k.
Arguments Await {A} k.

Fixpoint bind {A B : Type} (p : prog A) (f : A -> prog B) : prog B :=
  match p with
  | Ret a => f a
  | Throw e => Throw e
  | Do ev k => Do ev (bind k f)
  | AwaitFetch url init k => AwaitFetch url init (fun o => bind (k o) f)
  | Await k => Await (bind k f)
  end.

(** [try { p } catch (error) { h error }] *)
Fixpoint try_catch {A : Type} (p : prog A) (h : js_error -> prog A) : prog A :=
  match p with
  | Ret a => Ret a
  | Throw e => h e
  | Do ev k => Do ev (try_catch k h)
  | AwaitFetch url init k => AwaitFetch url init (fun o => try_catch (k o) h)
  | Await k => Await (try_catch k h)
  end.

#[global] Instance prog_ret : MRet prog := @Ret.
#[global] Instance prog_bind : MBind prog := fun A B f p => bind p f.

(** [await p] where [p] is the promise of another asynchronous function:
    the callee runs to its end, the caller resumes in a later turn with its
    value or its rejection. *)
Definition await {A : Type} (p : prog A) : prog A :=
  try_catch (bind p (fun a => Await (Ret a))) (fun e => Await (Throw e)).

(** A single effect as a statement. *)
Definition effect_ (ev : effect) : prog unit := Do ev (Ret tt).

(** *** Running one asynchronous function to its end *)

(** What an observer of one run sees, in order. *)
Inductive event : Type :=
| Eff (e : effect)
| Requested (url : string) (init : gmap string init_value)
| Settled (o : fetch_outcome).

(** A transport answers the [n]-th call it receives. *)
Definition transport : Type := nat -> string -> gmap string init_value -> fetch_outcome.

(** [run net p n acc]: the events of [p] appended to [acc], the number of
    transport calls made so far (starting from [n]), and how [p] ends. *)
Fixpoint run {A : Type} (net : transport) (p : prog A) (n : nat) (acc : list event)
    : list event * nat * (js_error + A) :=
  match p with
  | Ret a => (acc, n, inr a)
  | Throw e => (acc, n, inl e)
  | Do ev k => run net k n (acc ++ [Eff ev])%list
  | AwaitFetch url init k =>
      let o := net n url init in
      run net (k o) (S n) (acc ++ [Requested url init; Settled o])%list
  | Await k => run net k n acc
  end.

(** Observers of a trace. *)
Definition requested (tr : list event) : list string :=
  omap (fun ev => match ev with Requested url _ => Some url | _ => None end) tr.

Definition requests_made (tr : list event) : list (string * gmap string init_value) :=
  omap (fun ev => match ev with Requested url init => Some (url, init) | _ => None end) tr.

Definition notifications (tr : list event) : list (string * string) :=
  omap (fun ev => match ev with
                  | Eff (ShowNotification message type _) => Some (message, type)
                  | _ => None
                  end) tr.

Definition is_network (ev : event) : bool :=
  match ev with Eff _ => false | _ => true end.

Definition network_events (tr : list event) : list event := List.filter is_network tr.

End Async.
Export Async.

(** ** APIClient *)

Module APIClient.

Record client : Type := mk_client {
  baseURL : string;
  headers : gmap string string
}.

(**
<<
    constructor(baseURL) {
        this.baseURL = baseURL;
        this.headers = { 'Content-Type': 'application/json' };
    }
>> *)
Definition new_APIClient (base : string) : client :=
  {| baseURL := base; headers := {["Content-Type" := "application/json"]} |}.

(** Object spread [{ ...base, ...over }]: every own key of [over] replaces
    the key of the same name in [base]; values are copied as they are, not
    merged. *)
Definition spread (base over : gmap string init_value) : gmap string init_value :=
  over ∪ base.

(** The second argument of [fetch]: [{ headers: this.headers, ...options }]. *)
Definition fetch_init (this : client) (options : gmap string init_value)
    : gmap string init_value :=
  spread {["headers" := IHeaders (headers this)]} options.

(** The header set a request built from [init] carries: the [headers]
    member when it is a header set, none otherwise. *)
Definition sent_headers (init : gmap string init_value) : gmap string string :=
  match init !! "headers" with
  | Some (IHeaders h) => h
  | _ => ∅
  end.

(**
<<
    async request(endpoint, options = {}) {
        try {
            const url = `${this.baseURL}${endpoint}`;
            const response = await fetch(url, { headers: this.headers, ...options });
            if (!response.ok) {
                throw new Error(`HTTP ${response.status}: ${response.statusText}`);
            }
            return await response.json();
        } catch (error) {
            console.error(`API Error (${endpoint}):`, error);
            throw error;
        }
    }
>> *)
Definition request (this : client) (endpoint : string)
    (options : gmap string init_value) : prog value :=
  try_catch
    (let url := baseURL this +:+ endpoint in
     AwaitFetch url (fetch_init this options) (fun settled =>
       match settled with
       | NetworkFailure e => Throw e
       | Responded response =>
           if negb (ok response) then
             Throw (new_Error ("HTTP " +:+ show_int (status response) +:+ ": "
                               +:+ statusText response))
           else
             Await (match body response with
                    | inl e => Throw e
                    | inr parsed => Ret parsed
                    end)
       end))
    (fun error =>
       Do (ConsoleError ("API Error (" +:+ endpoint +:+ "):") error) (Throw error)).

(** [URLSearchParams] rendered in a template literal. The keys and values
    used by the accessors below (digits, [en]) need no percent-encoding. *)
Definition URLSearchParams_toString (params : list (string * string)) : string :=
  String.concat "&" (List.map (fun kv => fst kv +:+ "=" +:+ snd kv) params).

(** [if (regionId)] on an optional numeric id: [null] and [0] are falsy. *)
Definition region_given (regionId : option Z) : list (string * string) :=
  match regionId with
  | Some r => if (r =? 0)%Z then [] else [("region_id", show_int r)]
  | None => []
  end.

(**
<<
    async getExecutiveDashboard(regionId = null, language = 'en') {
        const params = new URLSearchParams();
        if (regionId) params.append('region_id', regionId);
        params.append('language', language);
        return this.request(`/reports/executive-dashboard?${params}`);
    }
>> *)
Definition getExecutiveDashboard (this : client) (regionId : option Z)
    (language : string) : prog value :=
  let params := (region_given regionId ++ [("language", language)])%list in
  request this ("/reports/executive-dashboard?" +:+ URLSearchParams_toString params) ∅.

(**
<<
    async getTrainingCapacity(regionId = null, years = 5) {
        const params = new URLSearchParams();
        if (regionId) params.append('region_id', regionId);
        params.append('years', years);
        return this.request(`/training/capacity?${params}`);
    }
>> *)
Definition getTrainingCapacity (this : client) (regionId : option Z) (years : Z)
    : prog value :=
  let params := (region_given regionId ++ [("years", show_int years)])%list in
  request this ("/training/capacity?" +:+ URLSearchParams_toString params) ∅.

(**
<<
    async getWorkforceProjections(regionId, categoryId, years = 5) {
        return this.request(
          `/workforce/projections/${regionId}/${categoryId}?years=${years}`);
    }
>> *)
Definition getWorkforceProjections (this : client) (regionId categoryId years : Z)
    : prog value :=
  request this ("/workforce/projections/" +:+ show_int regionId +:+ "/"
                +:+ show_int categoryId +:+ "?years=" +:+ show_int years) ∅.

End APIClient.
Export APIClient.

(** ** HealthWorkforceApp: the refresh routine *)

Module HealthWorkforceApp.

(** What the routine needs to know of the page. The three render functions
    only read the payload and write to the DOM, the console and the chart
    library; all that matters here is whether such a call returns or throws
    (a payload whose [supply_projections] is not an array makes
    [createProjectionChart] throw, for one). *)
Record dom : Type := mk_dom {
  has_refresh_button : bool;
  render_throws : view -> value -> option js_error
}.

Section App.

Variable api : client.
Variable page : dom.

(** [updateDashboardMetrics], [updateTrainingMetrics] and
    [updateProjectionCharts]: a call of the render function for [w]. *)
Definition render (w : view) (payload : value) : prog unit :=
  Do (Render w payload)
     (match render_throws page w payload with
      | Some e => Throw e
      | None => Ret tt
      end).

(** [showNotification(message, type, duration = 3000)] *)
Definition showNotification (message type : string) : prog unit :=
  effect_ (ShowNotification message type 3000).

Definition showSuccessNotification (message : string) : prog unit :=
  showNotification message "success".

Definition showErrorNotification (message : string) : prog unit :=
  showNotification message "error".

(**
<<
    async loadInitialData() {
        try {
            console.log('📊 Loading initial analytics data...');
            const dashboard = await this.api.getExecutiveDashboard();
            if (dashboard) {
                this.data.dashboard = dashboard;
                this.updateDashboardMetrics(dashboard);
            }
            const training = await this.api.getTrainingCapacity();
            if (training) {
                this.updateTrainingMetrics(training);
            }
            const projections = await this.api.getWorkforceProjections(1, 1, 5);
            if (projections) {
                this.updateProjectionCharts(projections);
            }
            this.data.lastUpdated = new Date();
            this.showSuccessNotification('Dashboard data loaded successfully');
        } catch (error) {
            console.error('❌ Failed to load initial data:', error);
            this.showErrorNotification('Failed to load dashboard data');
        }
    }
>> *)
Definition loadInitialData : prog unit :=
  try_catch
    (effect_ (ConsoleLog "📊 Loading initial analytics data...");;
     dashboard ← await (getExecutiveDashboard api None "en");
     (if truthy dashboard then
        effect_ (StoreDashboard dashboard);;
        render DashboardMetrics dashboard
      else Ret tt);;
     training ← await (getTrainingCapacity api None 5);
     (if truthy training then render TrainingMetrics training else Ret tt);;
     projections ← await (getWorkforceProjections api 1 1 5);
     (if truthy projections then render ProjectionCharts projections else Ret tt);;
     effect_ StoreLastUpdated;;
     showSuccessNotification "Dashboard data loaded successfully")
    (fun error =>
       effect_ (ConsoleError "❌ Failed to load initial data:" error);;
       showErrorNotification "Failed to load dashboard data").

(**
<<
    async refreshDashboardData() {
        try {
            const refreshBtn = document.getElementById('refresh-data');
            if (refreshBtn) {
                refreshBtn.disabled = true;
                refreshBtn.innerHTML = '🔄 Refreshing...';
            }
            await this.loadInitialData();
            if (refreshBtn) {
                refreshBtn.disabled = false;
                refreshBtn.innerHTML = '✅ Refreshed';
                setTimeout(() => { refreshBtn.innerHTML = 'Refresh Data'; }, 2000);
            }
        } catch (error) {
            console.error('❌ Refresh failed:', error);
            this.showErrorNotification('Failed to refresh data');
        }
    }
>> *)
Definition refreshDashboardData : prog unit :=
  try_catch
    ((if has_refresh_button page then
        effect_ (ButtonDisabled true);;
        effect_ (ButtonLabel "🔄 Refreshing...")
      else Ret tt);;
     await loadInitialData;;
     (if has_refresh_button page then
        effect_ (ButtonDisabled false);;
        effect_ (ButtonLabel "✅ Refreshed");;
        effect_ (SetTimeout 2000 (ButtonLabel "Refresh Data"))
      else Ret tt))
    (fun error =>
       effect_ (ConsoleError "❌ Refresh failed:" error);;
       showErrorNotification "Failed to refresh data").

(** The three requests of a cycle, in the order of the source. *)
Definition dashboard_url : string :=
  baseURL api +:+ "/reports/executive-dashboard?language=en".
Definition training_url : string :=
  baseURL api +:+ "/training/capacity?years=5".
Definition projections_url : string :=
  baseURL api +:+ "/workforce/projections/1/1?years=5".

(** Whether a stage of the cycle gets through: the request is fulfilled
    with a 2xx response whose body parses, and the render function, called
    when the payload is truthy, returns. *)
Definition stage_ok (w : view) (o : fetch_outcome) : bool :=
  match o with
  | NetworkFailure _ => false
  | Responded r =>
      ok r &&
      match body r with
      | inl _ => false
      | inr payload =>
          if truthy payload then
            match render_throws page w payload with Some _ => false | None => true end
          else true
      end
  end.

End App.

End HealthWorkforceApp.
Export HealthWorkforceApp.

(** ** The event loop: overlapping refresh cycles *)

Module EventLoop.

(** A task that has given up control: at [await fetch(...)], until the
    transport settles its request, or at another [await], until the loop
    gets back to it. *)
Inductive suspended : Type :=
| WaitFetch (k : fetch_outcome -> prog unit)
| Ready (k : prog unit).

(** The tasks in flight and everything observed so far. *)
Record loop_state : Type := mk_loop {
  pool : list suspended;
  log : list event
}.

Definition idle : loop_state := {| pool := []; log := [] |}.

(** Run-to-completion: a task runs, without interleaving, up to its next
    suspension point or to its end. Starting a [fetch] hands the request to
    the transport at once. *)
Fixpoint advance (p : prog unit) (acc : list event) : option suspended * list event :=
  match p with
  | Ret _ => (None, acc)
  | Throw _ => (None, acc)
  | Do ev k => advance k (acc ++ [Eff ev])%list
  | AwaitFetch url init k => (Some (WaitFetch k), (acc ++ [Requested url init])%list)
  | Await k => (Some (Ready k), acc)
  end.

(** The slot of a task after it ran: kept when it suspended again, freed
    when it ended. *)
Definition park (i : nat) (s : option suspended) (tasks : list suspended)
    : list suspended :=
  match s with
  | Some s' => <[i := s']> tasks
  | None => delete i tasks
  end.

(** What the loop can do next: call the refresh handler (the body shared
    by the interval callback and the click listener), settle the request a
    task waits for, or resume a task that is ready. *)
Inductive action : Type :=
| Trigger
| Deliver (i : nat) (o : fetch_outcome)
| Resume (i : nat).

Definition step (handler : prog unit) (a : action) (st : loop_state)
    : option loop_state :=
  match a with
  | Trigger =>
      let r := advance handler (log st) in
      Some {| pool := (pool st ++ option_list (fst r))%list; log := snd r |}
  | Deliver i o =>
      match pool st !! i with
      | Some (WaitFetch k) =>
          let r := advance (k o) (log st ++ [Settled o])%list in
          Some {| pool := park i (fst r) (pool st); log := snd r |}
      | _ => None
      end
  | Resume i =>
      match pool st !! i with
      | Some (Ready k) =>
          let r := advance k (log st) in
          Some {| pool := park i (fst r) (pool st); log := snd r |}
      | _ => None
      end
  end.

(** A schedule is any sequence of actions the loop accepts. *)
Fixpoint exec (handler : prog unit) (sched : list action) (st : loop_state)
    : option loop_state :=
  match sched with
  | [] => Some st
  | a :: rest =>
      match step handler a st with
      | Some st' => exec handler rest st'
      | None => None
      end
  end.

Definition triggers (sched : list action) : nat :=
  length (List.filter (fun a => match a with Trigger => true | _ => false end) sched).







Definition trigger_count (a : action) : nat :=
  match a with Trigger => 1%nat | _ => 0%nat end.


End EventLoop.
Export EventLoop.

(** ** Concrete inputs used by the examples below *)

Module Examples.

(** A coercion for strings and objects that maps everything to NaN; the
    records below hold numbers only. *)
Definition no_coercion : value -> float := fun _ => nan.


(** An entry written at time 1000 with a time-to-live of 5 ms. *)
Definition stale_store : gmap string AnalyticsEngine.cache_item :=
  AnalyticsEngine.setCacheItem 1000 "kpis" (VStr "cached") (Some 5) ∅.

Definition demo_api : client := new_APIClient "https://h/api/v1".
Definition demo_page : dom := mk_dom true (fun _ _ => None).

Definition server_error : fetch_outcome :=
  Responded (mk_response 500 "Internal Server Error" (inr (VObj []))).
Definition unreachable : fetch_outcome :=
  NetworkFailure (mk_error "TypeError" "Failed to fetch").

(** Per-call options that bring their own header. *)
Definition bearer_only : gmap string init_value :=
  {["headers" := IHeaders {["Authorization" := "Bearer t"]}]}.



(** The same two calls against a network that is down. *)
Definition overlapping_failures : list action :=
  [Trigger; Trigger; Deliver 0 unreachable; Deliver 1 unreachable;
   Resume 0; Resume 1; Resume 0; Resume 0].

End Examples.

(** ** More of the script: definitions *)

(** *** AnalyticsEngine.calculateEfficiencyMetrics *)

Module EfficiencyMetrics.

(** The object the function returns. *)
Record efficiency_metrics : Type := mk_metrics {
  utilizationRate : float;
  productivityIndex : float;
  costEffectiveness : float
}.

(**
<<
    calculateEfficiencyMetrics(data) {
        return {
            utilizationRate: this.calculateUtilizationRate(data),
            productivityIndex: this.calculateProductivityIndex(data),
            costEffectiveness: this.calculateCostEffectiveness(data)
        };
    }
>> *)
Definition calculateEfficiencyMetrics (ToNumber_other : value -> float)
    (data : gmap string value) : efficiency_metrics :=
  {| utilizationRate := AnalyticsEngine.calculateUtilizationRate ToNumber_other data;
     productivityIndex := AnalyticsEngine.calculateProductivityIndex ToNumber_other data;
     costEffectiveness := AnalyticsEngine.calculateCostEffectiveness ToNumber_other data |}.

End EfficiencyMetrics.

(** *** The other accessors of APIClient *)

Module Accessors.




(**
<<
    async getScenarioAnalysis(regionId, categoryId) {
        return this.request(`/scenario-analysis/${regionId}/${categoryId}`);
    }
>> *)
Definition getScenarioAnalysis (this : client) (regionId categoryId : Z) : prog value :=
  request this ("/scenario-analysis/" +:+ show_int regionId +:+ "/"
                +:+ show_int categoryId) ∅.

(**
<<
    async getWorkforceAnalysisReport(regionId, years = 5, language = 'en') {
        const params = new URLSearchParams({ years, language });
        return this.request(`/reports/workforce-analysis/${regionId}?${params}`);
    }
>> *)
Definition getWorkforceAnalysisReport (this : client) (regionId years : Z)
    (language : string) : prog value :=
  let params := [("years", show_int years); ("language", language)] in
  request this ("/reports/workforce-analysis/" +:+ show_int regionId +:+ "?"
                +:+ URLSearchParams_toString params) ∅.





End Accessors.

(** *** The refresh routine: what a cycle leaves behind *)

Module Refresh.

(** What [refreshDashboardData] does to the refresh button before it
    loads, and after. *)
Definition button_before (page : dom) : list event :=
  if has_refresh_button page
  then [Eff (ButtonDisabled true); Eff (ButtonLabel "🔄 Refreshing...")]
  else [].

Definition button_after (page : dom) : list event :=
  if has_refresh_button page
  then [Eff (ButtonDisabled false); Eff (ButtonLabel "✅ Refreshed");
        Eff (SetTimeout 2000 (ButtonLabel "Refresh Data"))]
  else [].




(** [at_most p n]: whatever the transport answers, [p] starts at most [n]
    more requests before it ends. *)
Inductive at_most : prog unit -> nat -> Prop :=
| at_most_ret a n : at_most (Ret a) n
| at_most_throw e n : at_most (Throw e) n
| at_most_do ev k n : at_most k n -> at_most (Do ev k) n
| at_most_await k n : at_most k n -> at_most (Await k) n
| at_most_fetch url init k n :
    (forall o, at_most (k o) n) -> at_most (AwaitFetch url init k) (S n).

Definition owes_at_most (s : suspended) (n : nat) : Prop :=
  match s with
  | WaitFetch k => forall o, at_most (k o) n
  | Ready k => at_most k n
  end.

Definition settled_at_most (s : option suspended) (n : nat) : Prop :=
  match s with
  | Some s' => owes_at_most s' n
  | None => True
  end.

(** The requests made so far plus what the tasks in flight may still make
    stay within [c] per trigger. *)
Definition capped (c t : nat) (st : loop_state) : Prop :=
  exists debts : list nat,
    Forall2 owes_at_most (pool st) debts /\
    (length (requested (log st)) + sum_list debts <= c * t)%nat.

End Refresh.

(** *** The action handlers of HealthWorkforceApp *)

Module Actions.

(** The effects of a button handler: those of the refresh routine, a
    [console.log] that prints a value after its label, and [window.open]. *)
Inductive page_effect : Type :=
| Core (e : effect)
| ConsoleLogValue (msg : string) (v : value)
| WindowOpen (url target : string).

(** Handler bodies: the programs of [Async], over the wider effects. *)
Inductive task (A : Type) : Type :=
| TRet (a : A)
| TThrow (e : js_error)
| TDo (ev : page_effect) (k : task A)
| TAwaitFetch (url : string) (init : gmap string init_value) (k : fetch_outcome -> task A)
| TAwait (k : task A).

Arguments TRet {A} a.
Arguments TThrow {A} e.
Arguments TDo {A} ev k.
Arguments TAwaitFetch {A} url init k.
Arguments TAwait {A} k.

(** A program of [Async] as a handler body. *)
Fixpoint lift {A : Type} (p : prog A) : task A :=
  match p with
  | Ret a => TRet a
  | Throw e => TThrow e
  | Do ev k => TDo (Core ev) (lift k)
  | AwaitFetch url init k => TAwaitFetch url init (fun o => lift (k o))
  | Await k => TAwait (lift k)
  end.

Fixpoint tbind {A B : Type} (p : task A) (f : A -> task B) : task B :=
  match p with
  | TRet a => f a
  | TThrow e => TThrow e
  | TDo ev k => TDo ev (tbind k f)
  | TAwaitFetch url init k => TAwaitFetch url init (fun o => tbind (k o) f)
  | TAwait k => TAwait (tbind k f)
  end.

(** [try { p } catch (error) { h error }] *)
Fixpoint ttry_catch {A : Type} (p : task A) (h : js_error -> task A) : task A :=
  match p with
  | TRet a => TRet a
  | TThrow e => h e
  | TDo ev k => TDo ev (ttry_catch k h)
  | TAwaitFetch url init k => TAwaitFetch url init (fun o => ttry_catch (k o) h)
  | TAwait k => TAwait (ttry_catch k h)
  end.

#[global] Instance task_ret : MRet task := @TRet.
#[global] Instance task_bind : MBind task := fun A B f p => tbind p f.

(** A single effect as a statement. *)
Definition perform (ev : page_effect) : task unit := TDo ev (TRet tt).

(** A step that may throw. *)
Definition attempt {A : Type} (r : js_error + A) : task A :=
  match r with
  | inl e => TThrow e
  | inr a => TRet a
  end.

(** What an observer of one run of a handler sees, in order. *)
Inductive page_event : Type :=
| PEff (e : page_effect)
| PRequested (url : string) (init : gmap string init_value)
| PSettled (o : fetch_outcome).

Fixpoint trun {A : Type} (net : transport) (p : task A) (n : nat) (acc : list page_event)
    : list page_event * nat * (js_error + A) :=
  match p with
  | TRet a => (acc, n, inr a)
  | TThrow e => (acc, n, inl e)
  | TDo ev k => trun net k n (acc ++ [PEff ev])
  | TAwaitFetch url init k =>
      let o := net n url init in
      trun net (k o) (S n) (acc ++ [PRequested url init; PSettled o])
  | TAwait k => trun net k n acc
  end.

Definition urls_requested (tr : list page_event) : list string :=
  omap (fun ev => match ev with PRequested url _ => Some url | _ => None end) tr.

Definition notes_shown (tr : list page_event) : list (string * string) :=
  omap (fun ev => match ev with
                  | PEff (Core (ShowNotification message type _)) => Some (message, type)
                  | _ => None
                  end) tr.

Definition windows_opened (tr : list page_event) : list (string * string) :=
  omap (fun ev => match ev with
                  | PEff (WindowOpen url target) => Some (url, target)
                  | _ => None
                  end) tr.

(** [new TypeError(message)]; the wording of the messages below is the
    engine's. *)
Definition TypeError (message : string) : js_error :=
  {| err_name := "TypeError"; err_message := message |}.

(** [v.name] for a name that no prototype defines: a read on [undefined]
    or [null] throws, an object gives its own property, any other value
    gives [undefined]. Of two properties of the same name in [fields] the
    first one counts. *)
Definition own (v : value) (name : string) : value :=
  match v with
  | VObj fields =>
      default VUndefined (snd <$> List.find (fun f => String.eqb (fst f) name) fields)
  | _ => VUndefined
  end.

Definition read (v : value) (name : string) : js_error + value :=
  match v with
  | VUndefined =>
      inl (TypeError ("Cannot read properties of undefined (reading '" +:+ name +:+ "')"))
  | VNull =>
      inl (TypeError ("Cannot read properties of null (reading '" +:+ name +:+ "')"))
  | _ => inr (own v name)
  end.

(** [target.forEach(callback)]: arrays have the method, the other values
    of the model do not. *)
Definition forEach (target : value) (callback : value -> task unit) : task unit :=
  match target with
  | VArr items => foldr (fun item rest => callback item;; rest) (TRet tt) items
  | VUndefined =>
      TThrow (TypeError "Cannot read properties of undefined (reading 'forEach')")
  | VNull => TThrow (TypeError "Cannot read properties of null (reading 'forEach')")
  | _ => TThrow (TypeError "forEach is not a function")
  end.

Section Handlers.

Variable api : client.

(** [showLoadingNotification(message)] is
    [showNotification(message, 'loading', 5000)]. *)
Definition showLoadingNotification (message : string) : task unit :=
  perform (Core (ShowNotification message "loading" 5000)).

(**
<<
    async generateProjection() {
        try {
            console.log('🔮 Generating AI-powered projections...');
            this.showLoadingNotification('Generating projections with ML algorithms...');
            const projections = await this.api.getWorkforceProjections(1, 1, 10);
            if (projections) {
                console.log('📊 Projections generated:', projections);
                this.showSuccessNotification('Projections generated successfully!');
                window.open('pages/modules/projections.html', '_blank');
            }
        } catch (error) {
            console.error('❌ Projection generation failed:', error);
            this.showErrorNotification('Failed to generate projections');
        }
    }
>> *)
Definition generateProjection : task unit :=
  ttry_catch
    (perform (Core (ConsoleLog "🔮 Generating AI-powered projections..."));;
     showLoadingNotification "Generating projections with ML algorithms...";;
     projections ← lift (await (getWorkforceProjections api 1 1 10));
     if truthy projections then
       perform (ConsoleLogValue "📊 Projections generated:" projections);;
       lift (showSuccessNotification "Projections generated successfully!");;
       perform (WindowOpen "pages/modules/projections.html" "_blank")
     else TRet tt)
    (fun error =>
       perform (Core (ConsoleError "❌ Projection generation failed:" error));;
       lift (showErrorNotification "Failed to generate projections")).

(**
<<
    async runScenarioAnalysis() {
        try {
            console.log('🔄 Running scenario analysis...');
            this.showLoadingNotification('Running Monte Carlo scenario analysis...');
            const scenarios = await this.api.getScenarioAnalysis(1, 1);
            if (scenarios) {
                console.log('🎯 Scenario analysis complete:', scenarios);
                this.showSuccessNotification('Scenario analysis completed!');
                window.open('pages/modules/scenarios.html', '_blank');
            }
        } catch (error) {
            console.error('❌ Scenario analysis failed:', error);
            this.showErrorNotification('Failed to run scenario analysis');
        }
    }
>> *)
Definition runScenarioAnalysis : task unit :=
  ttry_catch
    (perform (Core (ConsoleLog "🔄 Running scenario analysis..."));;
     showLoadingNotification "Running Monte Carlo scenario analysis...";;
     scenarios ← lift (await (Accessors.getScenarioAnalysis api 1 1));
     if truthy scenarios then
       perform (ConsoleLogValue "🎯 Scenario analysis complete:" scenarios);;
       lift (showSuccessNotification "Scenario analysis completed!");;
       perform (WindowOpen "pages/modules/scenarios.html" "_blank")
     else TRet tt)
    (fun error =>
       perform (Core (ConsoleError "❌ Scenario analysis failed:" error));;
       lift (showErrorNotification "Failed to run scenario analysis")).

(**
<<
    async generateReport() {
        try {
            console.log('📄 Generating executive report...');
            this.showLoadingNotification('Generating comprehensive analytics report...');
            const report = await this.api.getWorkforceAnalysisReport(1);
            if (report) {
                console.log('📋 Report generated:', report);
                this.showSuccessNotification('Report generated successfully!');
                window.open('pages/modules/reports.html', '_blank');
            }
        } catch (error) {
            console.error('❌ Report generation failed:', error);
            this.showErrorNotification('Failed to generate report');
        }
    }
>> *)
Definition generateReport : task unit :=
  ttry_catch
    (perform (Core (ConsoleLog "📄 Generating executive report..."));;
     showLoadingNotification "Generating comprehensive analytics report...";;
     report ← lift (await (Accessors.getWorkforceAnalysisReport api 1 5 "en"));
     if truthy report then
       perform (ConsoleLogValue "📋 Report generated:" report);;
       lift (showSuccessNotification "Report generated successfully!");;
       perform (WindowOpen "pages/modules/reports.html" "_blank")
     else TRet tt)
    (fun error =>
       perform (Core (ConsoleError "❌ Report generation failed:" error));;
       lift (showErrorNotification "Failed to generate report")).

(** The rendering of a value inside a template literal ([ToString]): the
    text, or the exception the conversion raises. Taken as a parameter. *)
Variable ToString : value -> js_error + string.

(** [${gap.name}] inside a template literal. *)
Definition interpolate (gap : value) (name : string) : task string :=
  v ← attempt (read gap name);
  attempt (ToString v).

(** [rec => console.log(`  • ${rec}`)] *)
Definition show_recommendation (rec : value) : task unit :=
  text ← attempt (ToString rec);
  perform (Core (ConsoleLog ("  • " +:+ text))).

(** The arrow function that [showAnalysisResults] runs on each entry. *)
Definition show_gap (gap : value) : task unit :=
  year ← interpolate gap "year";
  severity ← interpolate gap "severity";
  missing ← interpolate gap "gap";
  percentage ← interpolate gap "gap_percentage";
  perform (Core (ConsoleLog ("Year " +:+ year +:+ ": " +:+ severity +:+ " - Gap: "
                             +:+ missing +:+ " (" +:+ percentage +:+ "%)")));;
  recommendations ← attempt (read gap "recommendations");
  forEach recommendations show_recommendation.

(**
<<
    showAnalysisResults(gapAnalysis) {
        console.log('📊 Gap Analysis Results:');
        gapAnalysis.forEach(gap => {
            console.log(`Year ${gap.year}: ${gap.severity} - Gap: ${gap.gap} (${gap.gap_percentage}%)`);
            gap.recommendations.forEach(rec => console.log(`  • ${rec}`));
        });
    }
>> *)
Definition showAnalysisResults (gapAnalysis : value) : task unit :=
  perform (Core (ConsoleLog "📊 Gap Analysis Results:"));;
  forEach gapAnalysis show_gap.

(**
<<
    async runAnalysis() {
        try {
            console.log('🎯 Running gap analysis...');
            this.showLoadingNotification('Analyzing workforce gaps with AI...');
            const analysis = await this.api.getWorkforceProjections(1, 1, 5);
            if (analysis && analysis.gap_analysis) {
                console.log('📈 Gap analysis results:', analysis.gap_analysis);
                this.showAnalysisResults(analysis.gap_analysis);
                this.showSuccessNotification('Gap analysis completed!');
            }
        } catch (error) {
            console.error('❌ Analysis failed:', error);
            this.showErrorNotification('Failed to run analysis');
        }
    }
>>
    [analysis && analysis.gap_analysis] reads the property only when
    [analysis] is truthy. *)
Definition runAnalysis : task unit :=
  ttry_catch
    (perform (Core (ConsoleLog "🎯 Running gap analysis..."));;
     showLoadingNotification "Analyzing workforce gaps with AI...";;
     analysis ← lift (await (getWorkforceProjections api 1 1 5));
     gap_analysis ← (if truthy analysis then attempt (read analysis "gap_analysis")
                     else TRet analysis);
     if truthy gap_analysis then
       perform (ConsoleLogValue "📈 Gap analysis results:" gap_analysis);;
       showAnalysisResults gap_analysis;;
       lift (showSuccessNotification "Gap analysis completed!")
     else TRet tt)
    (fun error =>
       perform (Core (ConsoleError "❌ Analysis failed:" error));;
       lift (showErrorNotification "Failed to run analysis")).

(** Whether a value can be rendered in a template literal. *)
Definition renders (v : value) : bool :=
  match ToString v with inl _ => false | inr _ => true end.

(** An entry of [gap_analysis] that [showAnalysisResults] gets through:
    not [null], its four fields render, and its [recommendations] is an
    array of values that render. *)
Definition gap_ok (gap : value) : bool :=
  match gap with
  | VUndefined | VNull => false
  | _ =>
      renders (own gap "year") && renders (own gap "severity") &&
      renders (own gap "gap") && renders (own gap "gap_percentage") &&
      match own gap "recommendations" with
      | VArr recs => forallb renders recs
      | _ => false
      end
  end.

Definition gaps_ok (gapAnalysis : value) : bool :=
  match gapAnalysis with
  | VArr gaps => forallb gap_ok gaps
  | _ => false
  end.

End Handlers.

(** How the request of a handler went: rejected, non-2xx or unparsable; a
    payload that is falsy; a payload that is truthy. *)
Inductive verdict : Type := Failed | Falsy | Loaded.

Definition verdict_of (o : fetch_outcome) : verdict :=
  match o with
  | NetworkFailure _ => Failed
  | Responded r =>
      if ok r then
        match body r with
        | inl _ => Failed
        | inr payload => if truthy payload then Loaded else Falsy
        end
      else Failed
  end.

(** What one run of a handler shows: it asks for [url] once and never
    fails; it shows the [loading] notification, then the [failure]
    notification when the request failed, the [success] notification when
    the payload is truthy, and nothing more when the payload is falsy; it
    opens [page] in a new tab exactly when it shows [success]. *)
Definition behaves (net : transport) (handler : task unit) (init : gmap string init_value)
    (url loading success failure page : string) : Prop :=
  let r := trun net handler 0 [] in
  let v := verdict_of (net 0%nat url init) in
  urls_requested (fst (fst r)) = [url] /\
  snd r = inr tt /\
  notes_shown (fst (fst r))
    = (loading, "loading") ::
      match v with
      | Failed => [(failure, "error")]
      | Falsy => []
      | Loaded => [(success, "success")]
      end /\
  windows_opened (fst (fst r))
    = match v with
      | Loaded => [(page, "_blank")]
      | _ => []
      end.

(** A handler body that only writes to the console. *)
Inductive silent : task unit -> Prop :=
| silent_ret a : silent (TRet a)
| silent_throw e : silent (TThrow e)
| silent_log msg k : silent k -> silent (TDo (Core (ConsoleLog msg)) k)
| silent_log_value msg v k : silent k -> silent (TDo (ConsoleLogValue msg v) k).

(** Whether a body without suspension points returns (rather than
    throws). *)
Fixpoint ends (p : task unit) : bool :=
  match p with
  | TRet _ => true
  | TThrow _ => false
  | TDo _ k => ends k
  | TAwaitFetch _ _ _ => true
  | TAwait k => ends k
  end.

End Actions.

(** *** localStorage *)

Module LocalStorage.

(** [localStorage.getItem(key) || fallback]: a missing key reads as
    [null]; [null] and the empty string are falsy. *)
Definition getItem_or (key fallback : string) (store : gmap string string) : string :=
  match store !! key with
  | Some s => if String.eqb s "" then fallback else s
  | None => fallback
  end.

End LocalStorage.

(** *** Dark mode *)

Module Theme.

(** What the theme code reads and writes: the [light-mode] class of the
    body and [localStorage]. *)
Record theme_state : Type := mk_theme {
  light_mode : bool;
  storage : gmap string string
}.

(**
<<
    applyTheme(theme) {
        if (theme === 'light') {
            document.body.classList.add('light-mode');
        } else {
            document.body.classList.remove('light-mode');
        }
    }
>> *)
Definition applyTheme (theme : string) (st : theme_state) : theme_state :=
  if String.eqb theme "light"
  then {| light_mode := true; storage := storage st |}
  else {| light_mode := false; storage := storage st |}.

(**
<<
    setupDarkMode() {
        const themeToggle = document.getElementById('theme-toggle');
        if (!themeToggle) return;
        const savedTheme = localStorage.getItem('healthcare-theme') || 'dark';
        this.applyTheme(savedTheme);
        themeToggle.addEventListener('click', ...);
    }
>>
    [has_toggle] tells whether the page has the [#theme-toggle] element. *)
Definition setupDarkMode (has_toggle : bool) (st : theme_state) : theme_state :=
  if negb has_toggle then st
  else
    let savedTheme := LocalStorage.getItem_or "healthcare-theme" "dark" (storage st) in
    applyTheme savedTheme st.

(** The click listener of the toggle:
<<
    () => {
        const currentTheme = document.body.classList.contains('light-mode') ? 'light' : 'dark';
        const newTheme = currentTheme === 'dark' ? 'light' : 'dark';
        this.applyTheme(newTheme);
        localStorage.setItem('healthcare-theme', newTheme);
    }
>> *)
Definition toggle_click (st : theme_state) : theme_state :=
  let currentTheme := if light_mode st then "light" else "dark" in
  let newTheme := if String.eqb currentTheme "dark" then "light" else "dark" in
  let st' := applyTheme newTheme st in
  {| light_mode := light_mode st';
     storage := <["healthcare-theme" := newTheme]> (storage st') |}.

(** The name under which a state of the class is stored. *)
Definition theme_name (light : bool) : string := if light then "light" else "dark".

End Theme.

(** *** Navigation *)

Module Navigation.

(** A [.nav-tab] or [.nav-link] element: its [href] attribute ([null] when
    it has none) and whether it carries the class [active]. *)
Record nav_link : Type := mk_link {
  href : option string;
  active : bool
}.

(** [s.endsWith(suffix)]. [window.location.pathname] is ASCII, so bytes and
    UTF-16 code units agree on it. *)
Definition endsWith (s suffix : string) : bool :=
  let n := String.length s in
  let m := String.length suffix in
  (m <=? n)%nat && String.eqb (String.substring (n - m) m s) suffix.

(**
<<
    setActiveNavLink() {
        const currentPath = window.location.pathname;
        const navLinks = document.querySelectorAll('.nav-tab, .nav-link');
        navLinks.forEach(link => {
            const href = link.getAttribute('href');
            if (href && (currentPath === href || currentPath.endsWith(href))) {
                link.classList.add('active');
            } else {
                link.classList.remove('active');
            }
        });
    }
>> *)
Definition setActiveNavLink (currentPath : string) (navLinks : list nav_link)
    : list nav_link :=
  List.map
    (fun link =>
       {| href := href link;
          active :=
            match href link with
            | Some h =>
                negb (String.eqb h "") &&
                (String.eqb currentPath h || endsWith currentPath h)
            | None => false
            end |})
    navLinks.

End Navigation.

(** *** LanguageManager *)

Module LanguageManager.

(** The property names every plain object inherits from
    [Object.prototype]. A read of one of them on [translations] or on one
    of its tables finds the inherited member, not a translation: such
    reads are outside the model. *)
Definition Object_prototype_names : list string :=
  ["constructor"; "__defineGetter__"; "__defineSetter__"; "hasOwnProperty";
   "__lookupGetter__"; "__lookupSetter__"; "isPrototypeOf"; "propertyIsEnumerable";
   "toString"; "valueOf"; "__proto__"; "toLocaleString"].

Definition inherited (k : string) : bool := bool_decide (k ∈ Object_prototype_names).

(** [translations.en] *)
Definition en_table : gmap string string :=
  {[ "Healthcare Workforce Planning" := "Healthcare Workforce Planning";
     "Live Analytics" := "Live Analytics";
     "Last updated" := "Last updated";
     "Generate Projections" := "Generate AI Projections";
     "Scenario Analysis" := "Scenario Analysis";
     "Executive Reports" := "Executive Reports";
     "Gap Analysis" := "Gap Analysis" ]}.

(** [translations.ar] *)
Definition ar_table : gmap string string :=
  {[ "Healthcare Workforce Planning" := "تخطيط القوى العاملة الصحية";
     "Live Analytics" := "التحليلات المباشرة";
     "Last updated" := "آخر تحديث";
     "Generate Projections" := "إنشاء توقعات بالذكاء الاصطناعي";
     "Scenario Analysis" := "تحليل السيناريوهات";
     "Executive Reports" := "التقارير التنفيذية";
     "Gap Analysis" := "تحليل الفجوات" ]}.

Definition translations : gmap string (gmap string string) :=
  {[ "en" := en_table; "ar" := ar_table ]}.

(** The manager's [currentLanguage] and the parts of the page and of the
    browser it reads and writes: [localStorage], the elements carrying
    [data-translate] in document order (key and text), the text of
    [#current-language] when the page has it, the [dir] attribute of the
    document, the class [rtl] of the body, and the notifications shown.
    The translatable elements are taken to be distinct from each other and
    from [#current-language], and not nested. *)
Record world : Type := mk_world {
  currentLanguage : string;
  saved : gmap string string;
  translatable : list (string * string);
  language_label : option string;
  dir : option string;
  rtl : bool;
  shown : list (string * string)
}.

(** How a call ends: normally, with an exception (the state is the one
    reached when it was thrown), or outside the model. *)
Inductive outcome : Type :=
| Done (w : world)
| Threw (e : js_error) (w : world)
| Unmodelled.

(** [TypeError: Cannot read properties of undefined (reading '<key>')];
    the wording of the message is the engine's. *)
Definition undefined_read (key : string) : js_error :=
  {| err_name := "TypeError";
     err_message := "Cannot read properties of undefined (reading '" +:+ key +:+ "')" |}.

(** One element of the [forEach] in [applyLanguage]: the text of the
    element afterwards, an exception, or a read outside the model.
<<
    const key = element.getAttribute('data-translate');
    if (this.translations[this.currentLanguage][key]) {
        element.textContent = this.translations[this.currentLanguage][key];
    }
>> *)
Inductive translated : Type :=
| Text (s : string)
| Raises (e : js_error)
| Beyond.

Definition translate_element (language : string) (element : string * string) : translated :=
  let key := fst element in
  if inherited language then Beyond
  else
    match translations !! language with
    | None => Raises (undefined_read key)
    | Some table =>
        if inherited key then Beyond
        else
          match table !! key with
          | Some s => if String.eqb s "" then Text (snd element) else Text s
          | None => Text (snd element)
          end
    end.

(** The [forEach]: the elements before the one that throws keep their new
    text. Returns the elements and how the loop ended ([Some None]:
    normally; [Some (Some e)]: by throwing [e]; [None]: outside the
    model). *)
Fixpoint translate_all (language : string) (elements : list (string * string))
    : list (string * string) * option (option js_error) :=
  match elements with
  | [] => ([], Some None)
  | element :: rest =>
      match translate_element language element with
      | Text s =>
          let r := translate_all language rest in
          ((fst element, s) :: fst r, snd r)
      | Raises e => (element :: rest, Some (Some e))
      | Beyond => (element :: rest, None)
      end
  end.

Definition with_elements (w : world) (elements : list (string * string)) : world :=
  {| currentLanguage := currentLanguage w; saved := saved w;
     translatable := elements; language_label := language_label w;
     dir := dir w; rtl := rtl w; shown := shown w |}.

(**
<<
    applyLanguage() {
        document.querySelectorAll('[data-translate]').forEach(element => { ... });
        const currentLanguageSpan = document.getElementById('current-language');
        if (currentLanguageSpan) {
            currentLanguageSpan.textContent =
                this.currentLanguage === 'ar' ? 'العربية' : 'English';
        }
    }
>> *)
Definition applyLanguage (w : world) : outcome :=
  let r := translate_all (currentLanguage w) (translatable w) in
  match snd r with
  | None => Unmodelled
  | Some (Some e) => Threw e (with_elements w (fst r))
  | Some None =>
      Done {| currentLanguage := currentLanguage w; saved := saved w;
              translatable := fst r;
              language_label :=
                match language_label w with
                | Some _ =>
                    Some (if String.eqb (currentLanguage w) "ar"
                          then "العربية" else "English")
                | None => None
                end;
              dir := dir w; rtl := rtl w; shown := shown w |}
  end.

(**
<<
    init() {
        this.currentLanguage = localStorage.getItem('healthcare-language') || 'en';
        this.setupLanguageSwitcher();
        this.applyLanguage();
    }
>>
    [setupLanguageSwitcher] only registers click listeners, whose body is
    [switchLanguage]. *)
Definition init (w : world) : outcome :=
  applyLanguage
    {| currentLanguage :=
         LocalStorage.getItem_or "healthcare-language" "en" (saved w);
       saved := saved w; translatable := translatable w;
       language_label := language_label w; dir := dir w; rtl := rtl w;
       shown := shown w |}.

(**
<<
    switchLanguage(language) {
        if (language !== this.currentLanguage) {
            this.currentLanguage = language;
            localStorage.setItem('healthcare-language', language);
            this.applyLanguage();
            if (language === 'ar') {
                document.documentElement.setAttribute('dir', 'rtl');
                document.body.classList.add('rtl');
            } else {
                document.documentElement.setAttribute('dir', 'ltr');
                document.body.classList.remove('rtl');
            }
            HealthWorkforceApp.showSuccessNotification(
                language === 'ar' ? 'تم تغيير اللغة بنجاح' : 'Language changed successfully'
            );
        }
    }
>> *)
Definition switchLanguage (language : string) (w : world) : outcome :=
  if String.eqb language (currentLanguage w) then Done w
  else
    match applyLanguage
            {| currentLanguage := language;
               saved := <["healthcare-language" := language]> (saved w);
               translatable := translatable w; language_label := language_label w;
               dir := dir w; rtl := rtl w; shown := shown w |}
    with
    | Done w' =>
        Done {| currentLanguage := currentLanguage w'; saved := saved w';
                translatable := translatable w'; language_label := language_label w';
                dir := Some (if String.eqb language "ar" then "rtl" else "ltr");
                rtl := String.eqb language "ar";
                shown := shown w' ++
                  [(if String.eqb language "ar"
                    then "تم تغيير اللغة بنجاح" else "Language changed successfully",
                    "success")] |}
    | other => other
    end.

(** No [data-translate] key is the name of an inherited member. *)
Definition plain_keys (elements : list (string * string)) : Prop :=
  Forall (fun element => inherited (fst element) = false) elements.

(** What an element shows once [table] was applied to it. *)
Definition shows (table : gmap string string) (element : string * string)
    : string * string :=
  (fst element, default (snd element) (table !! fst element)).

Definition table_of (language : string) : gmap string string :=
  if String.eqb language "ar" then ar_table else en_table.

End LanguageManager.

(** *** Dropdowns *)

Module Dropdowns.

(** The elements the click listener of [setupDropdowns] can touch, in
    document order: those of class [dropdown] and the one that
    [getElementById('language-dropdown')] finds. For each, whether it has
    the class [dropdown], whether its id is [language-dropdown], and
    whether it has the class [show]. *)
Record widget : Type := mk_widget {
  dropdown_class : bool;
  language_id : bool;
  show : bool
}.

(** A click, as the listener sees it: whether the target is in
    [#language-toggle] ([e.target.closest('#language-toggle')]), whether it
    is in [#language-dropdown], and which of the elements contain it
    ([dropdown.contains(e.target)], by position). The target is taken to be
    an element. *)
Record click : Type := mk_click {
  on_toggle : bool;
  in_language : bool;
  inside : nat -> bool
}.

Definition set_show (b : bool) (w : widget) : widget :=
  {| dropdown_class := dropdown_class w; language_id := language_id w; show := b |}.

(** [getElementById('language-dropdown')]: the first element with that
    id. *)
Fixpoint language_index (ws : list widget) : option nat :=
  match ws with
  | [] => None
  | w :: rest => if language_id w then Some 0%nat else S <$> language_index rest
  end.

(**
<<
    document.addEventListener('click', (e) => {
        const languageToggle = document.getElementById('language-toggle');
        const languageDropdown = document.getElementById('language-dropdown');
        if (languageToggle && languageDropdown) {
            if (e.target.closest('#language-toggle')) {
                e.stopPropagation();
                languageDropdown.classList.toggle('show');
            } else if (!e.target.closest('#language-dropdown')) {
                languageDropdown.classList.remove('show');
            }
        }
        document.querySelectorAll('.dropdown').forEach(dropdown => {
            if (!dropdown.contains(e.target)) {
                dropdown.classList.remove('show');
            }
        });
    });
>>
    [has_toggle] tells whether the page has [#language-toggle]. *)
Definition on_click (has_toggle : bool) (e : click) (ws : list widget) : list widget :=
  let ws1 :=
    match language_index ws with
    | Some i =>
        if has_toggle then
          if on_toggle e then alter (fun w => set_show (negb (show w)) w) i ws
          else if negb (in_language e) then alter (set_show false) i ws
          else ws
        else ws
    | None => ws
    end in
  imap (fun i w => if dropdown_class w && negb (inside e i) then set_show false w else w) ws1.

End Dropdowns.

(** *** Sample data *)

Module Samples.

(** Twelve patients for four nurses; a cost of 90 and no service
    delivered. *)
Definition ward : gmap string value :=
  {[ "workload" := VNum 12; "workforce" := VNum 4;
     "totalCost" := VNum 90; "servicesDelivered" := VNum 0 ]}.

(** A record without the [workforce] field. *)
Definition unstaffed : gmap string value := {[ "workload" := VNum 12 ]}.

(** A record that has the three denominators and no numerator. *)
Definition denominators_only : gmap string value :=
  {[ "authorized" := VNum 10; "workforce" := VNum 4; "servicesDelivered" := VNum 7 ]}.

(** Nothing filled, no workload, no cost. *)
Definition idle_ward : gmap string value :=
  {[ "filled" := VNum 0; "authorized" := VNum 10;
     "workload" := VNull; "workforce" := VNum 4;
     "totalCost" := VNum 0; "servicesDelivered" := VNum 7 ]}.

(** A store with an entry that expires at 1005 and one that expires at
    9000. *)
Definition two_entries : gmap string AnalyticsEngine.cache_item :=
  AnalyticsEngine.setCacheItem 1000 "trend" (VStr "rising") (Some 8000)
    (AnalyticsEngine.setCacheItem 1000 "kpis" (VStr "cached") (Some 5) ∅).


(** A navigation bar whose second link carries [active] from the markup. *)
Definition nav_bar : list Navigation.nav_link :=
  [Navigation.mk_link (Some "reports.html") false;
   Navigation.mk_link (Some "index.html") true;
   Navigation.mk_link None true].


(** The same page as a reload finds it after Arabic was saved. *)
Definition reloaded_arabic : LanguageManager.world :=
  LanguageManager.mk_world "en" {["healthcare-language" := "ar"]}
    [("Gap Analysis", "Gap Analysis"); ("Beds", "Beds")]
    (Some "English") None false [].

(** A language menu that carries the class [dropdown], closed, next to
    its toggle, and an open menu of another kind. *)
Definition menus : list Dropdowns.widget :=
  [Dropdowns.mk_widget true true false; Dropdowns.mk_widget true false true].

(** A click on the language toggle, which is outside both menus. *)
Definition click_on_toggle : Dropdowns.click :=
  Dropdowns.mk_click true false (fun _ => false).

End Samples.

(** * Properties *)

Import AnalyticsEngine.
Import Examples.

(** ** Utilization rate *)

(** A number that is at most zero is not greater than zero. *)
Lemma ltb_zero_of_leb_zero (x : float) :
  (x <=? 0)%float = true -> (0 <? x)%float = false.
Proof.
  rewrite leb_spec, ltb_spec.
  change (Prim2SF 0) with (S754_zero false).
  destruct (Prim2SF x) as [s|s| |s m e]; try destruct s; cbn; congruence.
Qed.

(** NaN is not greater than zero. *)
Lemma ltb_zero_of_nan (x : float) : is_nan x = true -> (0 <? x)%float = false.
Proof.
  unfold is_nan. rewrite FloatAxioms.eqb_spec, ltb_spec.
  change (Prim2SF 0) with (S754_zero false).
  destruct (Prim2SF x) as [s|s| |s m e]; try destruct s; cbn; try congruence.
  all: rewrite Z.compare_refl, Pos.compare_cont_refl; cbn; congruence.
Qed.

Section RatioFacts.

Variable ToNumber_other : value -> float.

Lemma gt_zero_not_positive (v : value) :
  match v with
  | VUndefined | VNull | VBool false => True
  | VNum x => (x <=? 0)%float = true \/ is_nan x = true
  | _ => False
  end ->
  gt_zero ToNumber_other v = false.
Proof.
  destruct v as [| |[]|x| | |]; cbn; try tauto; try reflexivity.
  intros [H|H]; [apply ltb_zero_of_leb_zero | apply ltb_zero_of_nan]; exact H.
Qed.


End RatioFacts.



(** ** Cache *)

Lemma getCacheItem_absent (now : Z) (k : string) (cache : gmap string cache_item) :
  cache !! k = None -> getCacheItem now k cache = (VNull, cache).
Proof. intros H. unfold getCacheItem. rewrite H. reflexivity. Qed.

Lemma getCacheItem_fresh (now : Z) (k : string) (item : cache_item)
    (cache : gmap string cache_item) :
  cache !! k = Some item -> now <= item_expiry item ->
  getCacheItem now k cache = (item_value item, cache).
Proof.
  intros H Hle. unfold getCacheItem. rewrite H.
  destruct (Z.gtb_spec now (item_expiry item)); [lia | reflexivity].
Qed.

Lemma getCacheItem_expired (now : Z) (k : string) (item : cache_item)
    (cache : gmap string cache_item) :
  cache !! k = Some item -> item_expiry item < now ->
  getCacheItem now k cache = (VNull, delete k cache).
Proof.
  intros H Hlt. unfold getCacheItem. rewrite H.
  destruct (Z.gtb_spec now (item_expiry item)); [reflexivity | lia].
Qed.

Lemma setCacheItem_lookup (now : Z) (k : string) (v : value) (ttl : option Z)
    (cache : gmap string cache_item) :
  setCacheItem now k v ttl cache !! k
  = Some {| item_value := v; item_expiry := now + default default_ttl ttl |}.
Proof. unfold setCacheItem. apply lookup_insert_eq. Qed.

(** C5. Writing [v] under [k] with a positive time-to-live and reading [k]
    at the same instant returns [v] and leaves the store as written. The
    write replaces whatever was stored under [k] by
    [{ value: v, expiry: now + ttl }], and a call without [ttl] is a call
    with 300000. *)
Theorem setCacheItem_then_getCacheItem (now ttl : Z) (k : string) (v : value)
    (cache : gmap string cache_item) :
  0 < ttl ->
  getCacheItem now k (setCacheItem now k v (Some ttl) cache)
    = (v, setCacheItem now k v (Some ttl) cache) /\
  setCacheItem now k v (Some ttl) cache
    = <[k := {| item_value := v; item_expiry := now + ttl |}]> cache /\
  setCacheItem now k v None cache = setCacheItem now k v (Some 300000) cache /\
  getCacheItem now k (setCacheItem now k v None cache)
    = (v, setCacheItem now k v None cache).
Proof.
  intros Httl. repeat split.
  - rewrite (getCacheItem_fresh now k _ _ (setCacheItem_lookup now k v (Some ttl) cache));
      [reflexivity | simpl; lia].
  - rewrite (getCacheItem_fresh now k _ _ (setCacheItem_lookup now k v None cache));
      [reflexivity | simpl; unfold default_ttl; lia].
Qed.

(** A time-to-live of one millisecond is enough. *)
Lemma setCacheItem_then_getCacheItem_witness :
  getCacheItem 1000 "kpis" (setCacheItem 1000 "kpis" (VStr "cached") (Some 1) ∅)
  = (VStr "cached", setCacheItem 1000 "kpis" (VStr "cached") (Some 1) ∅).
Proof.
  apply (proj1 (setCacheItem_then_getCacheItem 1000 1 "kpis" (VStr "cached") ∅ ltac:(lia))).
Defined.

(** C6. A lookup returns the stored value, and leaves the store alone,
    when the key is present and [now <= expiry]. When the key is present
    and [now] is past the expiry it returns [null] and deletes the entry:
    the key is no longer in the store, and any later lookup finds nothing.
    When the key is absent it returns [null]. *)
Theorem getCacheItem_spec (now : Z) (k : string) (cache : gmap string cache_item) :
  (forall item, cache !! k = Some item -> now <= item_expiry item ->
     getCacheItem now k cache = (item_value item, cache)) /\
  (forall item, cache !! k = Some item -> item_expiry item < now ->
     fst (getCacheItem now k cache) = VNull /\
     snd (getCacheItem now k cache) = delete k cache /\
     has k (snd (getCacheItem now k cache)) = false /\
     forall later, getCacheItem later k (snd (getCacheItem now k cache))
                   = (VNull, delete k cache)) /\
  (cache !! k = None -> getCacheItem now k cache = (VNull, cache)).
Proof.
  split; [|split].
  - intros item H Hle. exact (getCacheItem_fresh now k item cache H Hle).
  - intros item H Hlt. rewrite (getCacheItem_expired now k item cache H Hlt). simpl.
    repeat split.
    + unfold has. rewrite lookup_delete_eq. apply bool_decide_eq_false.
      intros [x Hx]. discriminate.
    + intros later. apply getCacheItem_absent, lookup_delete_eq.
  - apply getCacheItem_absent.
Qed.

(** The entry that expires at 1005: still served at 1005, gone at 1006;
    a key never written reads as [null]. *)
Lemma getCacheItem_spec_witness :
  getCacheItem 1005 "kpis" stale_store = (VStr "cached", stale_store) /\
  fst (getCacheItem 1006 "kpis" stale_store) = VNull /\
  has "kpis" (snd (getCacheItem 1006 "kpis" stale_store)) = false /\
  getCacheItem 1006 "other" stale_store = (VNull, stale_store).
Proof.
  pose proof (getCacheItem_spec 1005 "kpis" stale_store) as [Hfresh _].
  pose proof (getCacheItem_spec 1006 "kpis" stale_store) as [_ [Hstale _]].
  pose proof (getCacheItem_spec 1006 "other" stale_store) as [_ [_ Habsent]].
  specialize (Hfresh (mk_item (VStr "cached") 1005) eq_refl ltac:(simpl; lia)).
  specialize (Hstale (mk_item (VStr "cached") 1005) eq_refl ltac:(simpl; lia)).
  specialize (Habsent eq_refl).
  destruct Hstale as [H1 [_ [H3 _]]].
  repeat split; assumption.
Defined.

(** C7 (as amended). An entry is served up to and including its expiry
    instant: a lookup at [now <= expiry] returns the value and keeps the
    entry; a lookup at [now > expiry] returns [null] and removes it. The
    entry survives a lookup exactly when [now <= expiry]. *)
Theorem cache_entry_visible_through_expiry (now : Z) (k : string) (item : cache_item)
    (cache : gmap string cache_item) :
  cache !! k = Some item ->
  (now <= item_expiry item ->
     getCacheItem now k cache = (item_value item, cache)) /\
  (item_expiry item < now ->
     getCacheItem now k cache = (VNull, delete k cache)) /\
  (snd (getCacheItem now k cache) !! k = Some item <-> now <= item_expiry item) /\
  (snd (getCacheItem now k cache) !! k = None <-> item_expiry item < now).
Proof.
  intros H.
  split; [exact (getCacheItem_fresh now k item cache H)|].
  split; [exact (getCacheItem_expired now k item cache H)|].
  destruct (Z.le_gt_cases now (item_expiry item)) as [Hle|Hlt].
  - rewrite (getCacheItem_fresh now k item cache H Hle). simpl. rewrite H.
    split; split; intros; try reflexivity; try assumption; try discriminate; lia.
  - rewrite (getCacheItem_expired now k item cache H Hlt). simpl. rewrite lookup_delete_eq.
    split; split; intros; try reflexivity; try assumption; try discriminate; lia.
Qed.

Lemma cache_entry_visible_through_expiry_witness :
  getCacheItem 1005 "kpis" stale_store = (VStr "cached", stale_store) /\
  getCacheItem 1006 "kpis" stale_store = (VNull, delete "kpis" stale_store).
Proof.
  pose proof (cache_entry_visible_through_expiry 1005 "kpis" (mk_item (VStr "cached") 1005)
                stale_store eq_refl) as [Hfresh _].
  pose proof (cache_entry_visible_through_expiry 1006 "kpis" (mk_item (VStr "cached") 1005)
                stale_store eq_refl) as [_ [Hstale _]].
  split; [apply Hfresh | apply Hstale]; simpl; lia.
Defined.

(** At the expiry instant itself, which is not strictly before it, the
    value is still returned and the entry is still in the store. *)
Lemma cache_entry_visible_at_expiry :
  stale_store !! "kpis" = Some {| item_value := VStr "cached"; item_expiry := 1005 |} /\
  (1005 <? 1005) = false /\
  getCacheItem 1005 "kpis" stale_store = (VStr "cached", stale_store).
Proof. repeat split. Qed.

(** C10. The value returned for a missing key is [null]; a [null] stored
    under a key is returned as [null], before its expiry (the stored
    value) and after it (the sentinel). So, at any time, the result of a
    lookup is the same for a key holding [null] and for a key that holds
    nothing. *)
Theorem cached_null_indistinguishable (now later : Z) (k : string) (ttl : option Z)
    (cache : gmap string cache_item) :
  fst (getCacheItem later k (delete k cache)) = VNull /\
  fst (getCacheItem later k (setCacheItem now k VNull ttl cache)) = VNull /\
  fst (getCacheItem later k (setCacheItem now k VNull ttl cache))
  = fst (getCacheItem later k (delete k cache)).
Proof.
  assert (H1 : fst (getCacheItem later k (delete k cache)) = VNull).
  { rewrite getCacheItem_absent; [reflexivity | apply lookup_delete_eq]. }
  assert (H2 : fst (getCacheItem later k (setCacheItem now k VNull ttl cache)) = VNull).
  { unfold getCacheItem. rewrite setCacheItem_lookup. simpl.
    destruct (later >? now + default default_ttl ttl); reflexivity. }
  rewrite H1, H2. repeat split.
Qed.

(** ** Running asynchronous programs *)

Lemma run_bind {A B : Type} (net : transport) (p : prog A) (f : A -> prog B) :
  forall n acc,
    run net (bind p f) n acc =
    match run net p n acc with
    | (tr, m, inr a) => run net (f a) m tr
    | (tr, m, inl e) => (tr, m, inl e)
    end.
Proof.
  induction p as [a|e|ev k IH|url init k IH|k IH]; intros n acc; simpl; auto.
Qed.

Lemma run_mbind {A B : Type} (net : transport) (p : prog A) (f : A -> prog B)
    (n : nat) (acc : list event) :
  run net (p ≫= f) n acc =
  match run net p n acc with
  | (tr, m, inr a) => run net (f a) m tr
  | (tr, m, inl e) => (tr, m, inl e)
  end.
Proof. apply run_bind. Qed.

Lemma run_try_catch {A : Type} (net : transport) (p : prog A) (h : js_error -> prog A) :
  forall n acc,
    run net (try_catch p h) n acc =
    match run net p n acc with
    | (tr, m, inr a) => (tr, m, inr a)
    | (tr, m, inl e) => run net (h e) m tr
    end.
Proof.
  induction p as [a|e|ev k IH|url init k IH|k IH]; intros n acc; simpl; auto.
Qed.

(** Awaiting another asynchronous function adds a suspension point and
    nothing else. *)
Lemma run_await {A : Type} (net : transport) (p : prog A) (n : nat) (acc : list event) :
  run net (await p) n acc = run net p n acc.
Proof.
  unfold await. rewrite run_try_catch, run_bind.
  destruct (run net p n acc) as [[tr m] [e|a]]; reflexivity.
Qed.

Lemma run_effect (net : transport) (ev : effect) (n : nat) (acc : list event) :
  run net (effect_ ev) n acc = (acc ++ [Eff ev], n, inr tt).
Proof. reflexivity. Qed.

Lemma run_ret {A : Type} (net : transport) (a : A) (n : nat) (acc : list event) :
  run net (Ret a) n acc = (acc, n, inr a).
Proof. reflexivity. Qed.

Lemma run_render (net : transport) (page : dom) (w : view) (payload : value)
    (n : nat) (acc : list event) :
  run net (render page w payload) n acc =
  (acc ++ [Eff (Render w payload)], n,
   match render_throws page w payload with Some e => inl e | None => inr tt end).
Proof. unfold render. simpl. destruct (render_throws page w payload); reflexivity. Qed.

Lemma run_notify (net : transport) (message type : string) (n : nat) (acc : list event) :
  run net (showNotification message type) n acc
  = (acc ++ [Eff (ShowNotification message type 3000)], n, inr tt).
Proof. reflexivity. Qed.

(** ** APIClient.request *)

(** One call of [request], outcome by outcome. *)
Lemma run_request (net : transport) (this : client) (endpoint : string)
    (options : gmap string init_value) (n : nat) (acc : list event) :
  run net (request this endpoint options) n acc =
  match net n (baseURL this +:+ endpoint) (fetch_init this options) with
  | NetworkFailure e =>
      (acc ++ [Requested (baseURL this +:+ endpoint) (fetch_init this options);
               Settled (NetworkFailure e);
               Eff (ConsoleError ("API Error (" +:+ endpoint +:+ "):") e)],
       S n, inl e)
  | Responded r =>
      if ok r then
        match body r with
        | inl e =>
            (acc ++ [Requested (baseURL this +:+ endpoint) (fetch_init this options);
                     Settled (Responded r);
                     Eff (ConsoleError ("API Error (" +:+ endpoint +:+ "):") e)],
             S n, inl e)
        | inr parsed =>
            (acc ++ [Requested (baseURL this +:+ endpoint) (fetch_init this options);
                     Settled (Responded r)],
             S n, inr parsed)
        end
      else
        (acc ++ [Requested (baseURL this +:+ endpoint) (fetch_init this options);
                 Settled (Responded r);
                 Eff (ConsoleError ("API Error (" +:+ endpoint +:+ "):")
                        (new_Error ("HTTP " +:+ show_int (status r) +:+ ": "
                                    +:+ statusText r)))],
         S n,
         inl (new_Error ("HTTP " +:+ show_int (status r) +:+ ": " +:+ statusText r)))
  end.
Proof.
  unfold request. simpl.
  destruct (net n (baseURL this +:+ endpoint) (fetch_init this options)) as [e|r]; simpl.
  - rewrite <- app_assoc. reflexivity.
  - destruct (ok r); simpl.
    + destruct (body r) as [e|parsed]; simpl; [rewrite <- app_assoc|]; reflexivity.
    + rewrite <- app_assoc. reflexivity.
Qed.

(** C2 (as amended). A call of [request] makes exactly one transport call
    and ends in one of four ways. Network failure: it fails with the very
    error [fetch] rejected with. Status outside 200..299: it fails with a
    plain [Error] whose message is the text [HTTP <status>: <statusText>];
    the status is part of that text only. Body that does not parse: it
    fails with the very error [response.json()] rejected with. Otherwise it
    returns the parsed body. Every failure is written to the console with
    the endpoint and then re-raised unchanged; nothing is retried. For a
    status of 500 the message starts with [HTTP 500: ]. *)
Theorem request_failure_modes (net : transport) (this : client) (endpoint : string)
    (options : gmap string init_value) (n : nat) :
  let url := baseURL this +:+ endpoint in
  let init := fetch_init this options in
  let logged e := Eff (ConsoleError ("API Error (" +:+ endpoint +:+ "):") e) in
  let http_error r :=
    new_Error ("HTTP " +:+ show_int (status r) +:+ ": " +:+ statusText r) in
  run net (request this endpoint options) n [] =
    match net n url init with
    | NetworkFailure e =>
        ([Requested url init; Settled (NetworkFailure e); logged e], S n, inl e)
    | Responded r =>
        if ok r then
          match body r with
          | inl e => ([Requested url init; Settled (Responded r); logged e], S n, inl e)
          | inr parsed => ([Requested url init; Settled (Responded r)], S n, inr parsed)
          end
        else
          ([Requested url init; Settled (Responded r); logged (http_error r)],
           S n, inl (http_error r))
    end
  /\
  forall text parsed,
    snd (run (fun _ _ _ => Responded (mk_response 500 text parsed))
             (request this endpoint options) n [])
    = inl (new_Error ("HTTP 500: " +:+ text)).
Proof.
  cbv zeta. split.
  - rewrite run_request. reflexivity.
  - intros text parsed. rewrite run_request. reflexivity.
Qed.

(** On HTTP 500 the call fails with a plain [Error]: its name is [Error],
    its message is the text below, and reading [status] on it gives
    [undefined], not 500. *)
Lemma request_http_500_error_has_no_status :
  snd (run (fun _ _ _ => server_error) (request demo_api "/reports/training-capacity" ∅)
           0 [])
    = inl (new_Error "HTTP 500: Internal Server Error") /\
  error_prop (new_Error "HTTP 500: Internal Server Error") "status" = VUndefined /\
  error_prop (new_Error "HTTP 500: Internal Server Error") "name" = VStr "Error".
Proof. repeat split. Qed.

Lemma fetch_init_headers (this : client) (options : gmap string init_value) :
  fetch_init this options !! "headers"
  = Some (default (IHeaders (headers this)) (options !! "headers")).
Proof.
  unfold fetch_init, spread. rewrite lookup_union.
  destruct (options !! "headers") as [x|]; simpl; rewrite lookup_singleton_eq; reflexivity.
Qed.

(** C3 (as amended). A call of [request] hands [fetch] the object
    [{ headers: this.headers, ...options }]. Without a [headers] member in
    [options] the request carries the default header set, which is
    [Content-Type: application/json]. With one, that member replaces the
    default set as a whole: the request carries exactly the per-call
    headers. *)
Theorem request_headers_replace_defaults (net : transport) (base endpoint : string)
    (options : gmap string init_value) (n : nat) :
  requests_made (fst (fst (run net (request (new_APIClient base) endpoint options) n [])))
    = [(base +:+ endpoint, fetch_init (new_APIClient base) options)] /\
  sent_headers (fetch_init (new_APIClient base) options)
    = match options !! "headers" with
      | None => {["Content-Type" := "application/json"]}
      | Some (IHeaders h) => h
      | Some (IValue _) => ∅
      end.
Proof.
  split.
  - rewrite run_request. simpl.
    destruct (net n _ _) as [e|r]; [reflexivity|].
    destruct (ok r); [destruct (body r)|]; reflexivity.
  - unfold sent_headers. rewrite fetch_init_headers.
    destruct (options !! "headers") as [[h|v]|]; reflexivity.
Qed.

(** Options that bring an [Authorization] header: the request carries it,
    and no [Content-Type] at all. *)
Lemma request_headers_not_merged :
  sent_headers (fetch_init demo_api bearer_only) !! "Authorization" = Some "Bearer t" /\
  sent_headers (fetch_init demo_api bearer_only) !! "Content-Type" = None.
Proof. split; vm_compute; reflexivity. Qed.

(** ** One refresh cycle *)

Lemma accessor_dashboard (api : client) :
  getExecutiveDashboard api None "en"
  = request api "/reports/executive-dashboard?language=en" ∅.
Proof. reflexivity. Qed.

Lemma accessor_training (api : client) :
  getTrainingCapacity api None 5 = request api "/training/capacity?years=5" ∅.
Proof. reflexivity. Qed.

Lemma accessor_projections (api : client) :
  getWorkforceProjections api 1 1 5
  = request api "/workforce/projections/1/1?years=5" ∅.
Proof. reflexivity. Qed.

(** Symbolic execution of a cycle: push [run] through the next construct. *)
Ltac run_step :=
  lazymatch goal with
  | |- context [run ?net (try_catch ?p ?h) ?n ?acc] => rewrite (run_try_catch net p h n acc)
  | |- context [run ?net (?p ≫= ?f) ?n ?acc] => rewrite (run_mbind net p f n acc)
  | |- context [run ?net (await ?p) ?n ?acc] => rewrite (run_await net p n acc)
  | |- context [run ?net (effect_ ?ev) ?n ?acc] => rewrite (run_effect net ev n acc)
  | |- context [run ?net (render ?pg ?w ?v) ?n ?acc] => rewrite (run_render net pg w v n acc)
  | |- context [run ?net (showNotification ?m ?t) ?n ?acc] =>
      rewrite (run_notify net m t n acc)
  | |- context [run ?net (Ret ?a) ?n ?acc] => rewrite (run_ret net a n acc)
  | |- context [run ?net (getExecutiveDashboard ?api None "en") ?n ?acc] =>
      rewrite (accessor_dashboard api)
  | |- context [run ?net (getTrainingCapacity ?api None 5) ?n ?acc] =>
      rewrite (accessor_training api)
  | |- context [run ?net (getWorkforceProjections ?api 1 1 5) ?n ?acc] =>
      rewrite (accessor_projections api)
  | |- context [run ?net (request ?api ?ep ?opts) ?n ?acc] =>
      rewrite (run_request net api ep opts n acc)
  end;
  cbv beta iota.

(** Branch on what the environment decides, keeping the decision. *)
Ltac split_case :=
  match goal with
  | |- context [match ?net ?n ?u ?i with NetworkFailure _ => _ | Responded _ => _ end] =>
      destruct (net n u i) as [?e|?r] eqn:?
  | |- context [if ok ?r then _ else _] => destruct (ok r) eqn:?
  | |- context [match body ?r with inl _ => _ | inr _ => _ end] =>
      destruct (body r) as [?e|?payload] eqn:?
  | |- context [if truthy ?v then _ else _] => destruct (truthy v) eqn:?
  | |- context [match render_throws ?p ?w ?v with Some _ => _ | None => _ end] =>
      destruct (render_throws p w v) as [?e|] eqn:?
  end;
  cbv beta iota.

(** Replay the recorded decisions on the other side of the equation. *)
Ltac replay :=
  repeat match goal with
         | H : _ = _ |- _ => rewrite H; cbv beta iota delta [andb]
         end.

Ltac explore :=
  match goal with
  | |- ?lhs = ?rhs =>
      let R := fresh "expected" in
      set (R := rhs); repeat first [run_step | split_case]; subst R
  end.

Section Cycle.

Variable api : client.
Variable page : dom.
Variable net : transport.

(** What one run of [loadInitialData] shows, as a function of how the
    three stages go. *)
Lemma loadInitialData_cases :
  (let r := run net (loadInitialData api page) 0 [] in
   (requested (fst (fst r)), notifications (fst (fst r)),
    network_events (fst (fst r)), snd r))
  =
  (let o1 := net 0%nat (dashboard_url api) (fetch_init api ∅) in
   let o2 := net 1%nat (training_url api) (fetch_init api ∅) in
   let o3 := net 2%nat (projections_url api) (fetch_init api ∅) in
   let i := fetch_init api ∅ in
   if stage_ok page DashboardMetrics o1 then
     if stage_ok page TrainingMetrics o2 then
       ([dashboard_url api; training_url api; projections_url api],
        (if stage_ok page ProjectionCharts o3
         then [("Dashboard data loaded successfully", "success")]
         else [("Failed to load dashboard data", "error")]),
        [Requested (dashboard_url api) i; Settled o1;
         Requested (training_url api) i; Settled o2;
         Requested (projections_url api) i; Settled o3],
        inr tt)
     else
       ([dashboard_url api; training_url api],
        [("Failed to load dashboard data", "error")],
        [Requested (dashboard_url api) i; Settled o1;
         Requested (training_url api) i; Settled o2],
        inr tt)
   else
     ([dashboard_url api],
      [("Failed to load dashboard data", "error")],
      [Requested (dashboard_url api) i; Settled o1],
      inr tt)).
Proof.
  cbv zeta.
  unfold stage_ok, dashboard_url, training_url, projections_url, loadInitialData,
    showSuccessNotification, showErrorNotification.
  explore; replay; reflexivity.
Qed.

(** C1 (as amended). One [try]/[catch] encloses the three fetches of a
    cycle, so the cycle goes through its stages in order (executive
    dashboard, training capacity, workforce projections) and stops at the
    first stage that fails: the fetches after it are not attempted. The
    cycle itself never fails, and it shows exactly one notification: the
    failure notification when a stage failed, whichever and however the
    stage failed, the success notification otherwise. *)
Theorem loadInitialData_stops_at_first_failure :
  let tr := fst (fst (run net (loadInitialData api page) 0 [])) in
  let ok1 := stage_ok page DashboardMetrics
               (net 0%nat (dashboard_url api) (fetch_init api ∅)) in
  let ok2 := stage_ok page TrainingMetrics
               (net 1%nat (training_url api) (fetch_init api ∅)) in
  let ok3 := stage_ok page ProjectionCharts
               (net 2%nat (projections_url api) (fetch_init api ∅)) in
  requested tr
    = (if ok1 then
         if ok2 then [dashboard_url api; training_url api; projections_url api]
         else [dashboard_url api; training_url api]
       else [dashboard_url api]) /\
  notifications tr
    = (if ok1 && ok2 && ok3
       then [("Dashboard data loaded successfully", "success")]
       else [("Failed to load dashboard data", "error")]) /\
  snd (run net (loadInitialData api page) 0 []) = inr tt.
Proof.
  cbv zeta. pose proof loadInitialData_cases as H. cbv zeta in H.
  pose proof (f_equal (fun x => fst (fst (fst x))) H) as Hreq.
  pose proof (f_equal (fun x => snd (fst (fst x))) H) as Hnote.
  pose proof (f_equal snd H) as Hres.
  clear H. cbv beta in Hreq, Hnote, Hres.
  destruct (stage_ok page DashboardMetrics _);
    [destruct (stage_ok page TrainingMetrics _);
       [destruct (stage_ok page ProjectionCharts _)|]|];
    cbn [fst snd andb] in *; rewrite Hreq, Hnote, Hres; repeat split.
Qed.


End Cycle.

(** The network is down: the first fetch fails, the other two are never
    attempted, and the failure notification is shown. *)
Lemma loadInitialData_first_failure_skips_rest :
  requested (fst (fst (run (fun _ _ _ => unreachable) (loadInitialData demo_api demo_page)
                           0 [])))
    = ["https://h/api/v1/reports/executive-dashboard?language=en"] /\
  notifications (fst (fst (run (fun _ _ _ => unreachable)
                               (loadInitialData demo_api demo_page) 0 [])))
    = [("Failed to load dashboard data", "error")].
Proof. split; vm_compute; reflexivity. Qed.

(** ** Overlapping refresh cycles *)


Lemma requested_snoc_effect (acc : list event) (ev : effect) :
  requested (acc ++ [Eff ev]) = requested acc.
Proof. unfold requested. rewrite omap_app. simpl. apply app_nil_r. Qed.

Lemma requested_snoc_settled (acc : list event) (o : fetch_outcome) :
  requested (acc ++ [Settled o]) = requested acc.
Proof. unfold requested. rewrite omap_app. simpl. apply app_nil_r. Qed.

Lemma requested_snoc_request (acc : list event) (url : string)
    (init : gmap string init_value) :
  requested (acc ++ [Requested url init]) = requested acc ++ [url].
Proof. unfold requested. rewrite omap_app. reflexivity. Qed.


Lemma sum_list_insert (debts : list nat) (i d m : nat) :
  debts !! i = Some d ->
  (sum_list (<[i := m]> debts) + d = sum_list debts + m)%nat.
Proof.
  revert i. induction debts as [|x debts IH]; intros [|i] H; simpl in *; try discriminate.
  - injection H as ->. lia.
  - specialize (IH i H). lia.
Qed.

Lemma sum_list_delete (debts : list nat) (i d : nat) :
  debts !! i = Some d ->
  (sum_list (delete i debts) + d = sum_list debts)%nat.
Proof.
  revert i. induction debts as [|x debts IH]; intros [|i] H; simpl in *; try discriminate.
  - injection H as ->. lia.
  - specialize (IH i H). lia.
Qed.








(** * More of the script: properties *)

(** ** The ratio helpers of AnalyticsEngine *)

Lemma float_of_nan_spec (z : float) : Prim2SF z = S754_nan -> z = nan.
Proof. intros H. rewrite <- (SF2Prim_Prim2SF z), H. reflexivity. Qed.

(** NaN divided by anything, and NaN times anything, is NaN. *)
Lemma div_nan_l (y : float) : (nan / y)%float = nan.
Proof.
  apply float_of_nan_spec. rewrite div_spec.
  change (Prim2SF nan) with S754_nan. reflexivity.
Qed.

Lemma mul_nan_l (y : float) : (nan * y)%float = nan.
Proof.
  apply float_of_nan_spec. rewrite mul_spec.
  change (Prim2SF nan) with S754_nan. reflexivity.
Qed.

(** Zero divided by a number greater than zero (infinity included) is
    zero. *)
Lemma div_zero_positive (y : float) : (0 <? y)%float = true -> (0 / y)%float = 0%float.
Proof.
  intros H. rewrite ltb_spec in H.
  rewrite <- (SF2Prim_Prim2SF (0 / y)), div_spec.
  change (Prim2SF 0) with (S754_zero false) in *.
  destruct (Prim2SF y) as [s|s| |s m e]; try destruct s; cbn in H; try discriminate;
    reflexivity.
Qed.

Section HelperFacts.

Variable ToNumber_other : value -> float.

(** X1. [calculateProductivityIndex] and [calculateCostEffectiveness] guard
    their division the way [calculateUtilizationRate] does: the result is
    exactly 0 when the denominator ([workforce], [servicesDelivered]) is
    missing, [null], [false], zero, negative or NaN, and the plain quotient
    of the two fields, without any scaling, when the denominator is greater
    than zero. *)
Theorem ratio_helpers_zero_denominator (data : gmap string value) :
  (gt_zero ToNumber_other (prop data "workforce") = true ->
     calculateProductivityIndex ToNumber_other data
     = (ToNumber ToNumber_other (prop data "workload")
        / ToNumber ToNumber_other (prop data "workforce"))%float) /\
  (gt_zero ToNumber_other (prop data "servicesDelivered") = true ->
     calculateCostEffectiveness ToNumber_other data
     = (ToNumber ToNumber_other (prop data "totalCost")
        / ToNumber ToNumber_other (prop data "servicesDelivered"))%float) /\
  (match prop data "workforce" with
   | VUndefined | VNull | VBool false => True
   | VNum x => (x <=? 0)%float = true \/ is_nan x = true
   | _ => False
   end -> calculateProductivityIndex ToNumber_other data = 0%float) /\
  (match prop data "servicesDelivered" with
   | VUndefined | VNull | VBool false => True
   | VNum x => (x <=? 0)%float = true \/ is_nan x = true
   | _ => False
   end -> calculateCostEffectiveness ToNumber_other data = 0%float).
Proof.
  unfold calculateProductivityIndex, calculateCostEffectiveness, js_div.
  repeat split.
  - intros ->. reflexivity.
  - intros ->. reflexivity.
  - intros H. rewrite (gt_zero_not_positive _ _ H). reflexivity.
  - intros H. rewrite (gt_zero_not_positive _ _ H). reflexivity.
Qed.

(** X2. The guard looks at the denominator only. A record that has a
    denominator greater than zero but lacks the numerator ([filled],
    [workload], [totalCost]) makes each helper return NaN, not 0:
    [undefined] converts to NaN, and NaN goes through the division and the
    scaling by 100. *)
Theorem missing_numerator_gives_nan (data : gmap string value) :
  (data !! "filled" = None ->
   gt_zero ToNumber_other (prop data "authorized") = true ->
   calculateUtilizationRate ToNumber_other data = nan) /\
  (data !! "workload" = None ->
   gt_zero ToNumber_other (prop data "workforce") = true ->
   calculateProductivityIndex ToNumber_other data = nan) /\
  (data !! "totalCost" = None ->
   gt_zero ToNumber_other (prop data "servicesDelivered") = true ->
   calculateCostEffectiveness ToNumber_other data = nan).
Proof.
  unfold calculateUtilizationRate, calculateProductivityIndex,
    calculateCostEffectiveness, js_div.
  repeat split; intros Hnone ->; unfold prop at 1; rewrite Hnone; simpl.
  - rewrite div_nan_l. apply mul_nan_l.
  - apply div_nan_l.
  - apply div_nan_l.
Qed.

(** X3. A numerator that is 0 or [null], over a denominator greater than
    zero (however large, infinity included), gives exactly 0 in each of the
    three helpers. *)
Theorem zero_numerator_gives_zero (data : gmap string value) :
  (data !! "filled" = Some (VNum 0) \/ data !! "filled" = Some VNull ->
   gt_zero ToNumber_other (prop data "authorized") = true ->
   calculateUtilizationRate ToNumber_other data = 0%float) /\
  (data !! "workload" = Some (VNum 0) \/ data !! "workload" = Some VNull ->
   gt_zero ToNumber_other (prop data "workforce") = true ->
   calculateProductivityIndex ToNumber_other data = 0%float) /\
  (data !! "totalCost" = Some (VNum 0) \/ data !! "totalCost" = Some VNull ->
   gt_zero ToNumber_other (prop data "servicesDelivered") = true ->
   calculateCostEffectiveness ToNumber_other data = 0%float).
Proof.
  unfold calculateUtilizationRate, calculateProductivityIndex,
    calculateCostEffectiveness, js_div.
  repeat split; intros [Hf|Hf] Hgt; rewrite Hgt; unfold prop at 1; rewrite Hf; simpl;
    rewrite (div_zero_positive _ Hgt); reflexivity.
Qed.

(** X4. [calculateEfficiencyMetrics] computes its three members
    independently of each other: each one reads its own two fields of the
    record and no other, so writing any other field leaves it unchanged.
    For the empty record all three are 0. *)
Theorem efficiency_metrics_independent (data : gmap string value) (k : string) (v : value) :
  (k <> "filled" -> k <> "authorized" ->
   EfficiencyMetrics.utilizationRate
     (EfficiencyMetrics.calculateEfficiencyMetrics ToNumber_other (<[k := v]> data))
   = EfficiencyMetrics.utilizationRate
       (EfficiencyMetrics.calculateEfficiencyMetrics ToNumber_other data)) /\
  (k <> "workload" -> k <> "workforce" ->
   EfficiencyMetrics.productivityIndex
     (EfficiencyMetrics.calculateEfficiencyMetrics ToNumber_other (<[k := v]> data))
   = EfficiencyMetrics.productivityIndex
       (EfficiencyMetrics.calculateEfficiencyMetrics ToNumber_other data)) /\
  (k <> "totalCost" -> k <> "servicesDelivered" ->
   EfficiencyMetrics.costEffectiveness
     (EfficiencyMetrics.calculateEfficiencyMetrics ToNumber_other (<[k := v]> data))
   = EfficiencyMetrics.costEffectiveness
       (EfficiencyMetrics.calculateEfficiencyMetrics ToNumber_other data)) /\
  EfficiencyMetrics.calculateEfficiencyMetrics ToNumber_other ∅
  = EfficiencyMetrics.mk_metrics 0 0 0.
Proof.
  repeat split; try reflexivity; intros H1 H2; simpl;
    unfold calculateUtilizationRate, calculateProductivityIndex,
      calculateCostEffectiveness, prop;
    rewrite !lookup_insert_ne by congruence; reflexivity.
Qed.

End HelperFacts.

(** Twelve patients for four nurses: 3. No nurse: 0. A cost of 90 for 0
    services: 0. *)
Lemma ratio_helpers_zero_denominator_witness :
  calculateProductivityIndex no_coercion Samples.ward = 3%float /\
  calculateCostEffectiveness no_coercion Samples.ward = 0%float /\
  calculateProductivityIndex no_coercion Samples.unstaffed = 0%float.
Proof.
  pose proof (ratio_helpers_zero_denominator no_coercion Samples.ward) as [H1 [_ [_ H4]]].
  pose proof (ratio_helpers_zero_denominator no_coercion Samples.unstaffed) as [_ [_ [H3 _]]].
  split; [|split].
  - rewrite H1; vm_compute; reflexivity.
  - apply H4. vm_compute. left. reflexivity.
  - apply H3. vm_compute. exact I.
Defined.

(** A record that only has the three denominators. *)
Lemma missing_numerator_gives_nan_witness :
  calculateUtilizationRate no_coercion Samples.denominators_only = nan /\
  calculateProductivityIndex no_coercion Samples.denominators_only = nan /\
  calculateCostEffectiveness no_coercion Samples.denominators_only = nan.
Proof.
  pose proof (missing_numerator_gives_nan no_coercion Samples.denominators_only)
    as [H1 [H2 H3]].
  split; [|split]; [apply H1 | apply H2 | apply H3]; vm_compute; reflexivity.
Defined.

Lemma zero_numerator_gives_zero_witness :
  calculateUtilizationRate no_coercion Samples.idle_ward = 0%float /\
  calculateProductivityIndex no_coercion Samples.idle_ward = 0%float /\
  calculateCostEffectiveness no_coercion Samples.idle_ward = 0%float.
Proof.
  pose proof (zero_numerator_gives_zero no_coercion Samples.idle_ward) as [H1 [H2 H3]].
  split; [|split]; [apply H1 | apply H2 | apply H3];
    first [left; vm_compute; reflexivity | right; vm_compute; reflexivity
          | vm_compute; reflexivity].
Defined.

(** Writing [region] changes none of the three members. *)
Lemma efficiency_metrics_independent_witness :
  EfficiencyMetrics.calculateEfficiencyMetrics no_coercion
    (<["region" := VStr "Riyadh"]> Samples.ward)
  = EfficiencyMetrics.calculateEfficiencyMetrics no_coercion Samples.ward.
Proof.
  pose proof (efficiency_metrics_independent no_coercion Samples.ward "region"
                (VStr "Riyadh")) as [H1 [H2 [H3 _]]].
  specialize (H1 ltac:(discriminate) ltac:(discriminate)).
  specialize (H2 ltac:(discriminate) ltac:(discriminate)).
  specialize (H3 ltac:(discriminate) ltac:(discriminate)).
  destruct (EfficiencyMetrics.calculateEfficiencyMetrics no_coercion
              (<["region" := VStr "Riyadh"]> Samples.ward)) as [u p c].
  destruct (EfficiencyMetrics.calculateEfficiencyMetrics no_coercion Samples.ward)
    as [u' p' c'].
  simpl in H1, H2, H3. rewrite H1, H2, H3. reflexivity.
Defined.

(** ** The cache of AnalyticsEngine, beyond a single lookup *)

Lemma getCacheItem_other (now : Z) (k k' : string) (cache : gmap string cache_item) :
  k <> k' -> snd (getCacheItem now k cache) !! k' = cache !! k'.
Proof.
  intros Hne. unfold getCacheItem.
  destruct (cache !! k) as [item|]; [|reflexivity].
  destruct (now >? item_expiry item); simpl; [apply lookup_delete_ne; exact Hne | reflexivity].
Qed.

(** What a lookup returns depends on the entry under its key only. *)
Lemma getCacheItem_fst_lookup (t : Z) (k : string) (c1 c2 : gmap string cache_item) :
  c1 !! k = c2 !! k -> fst (getCacheItem t k c1) = fst (getCacheItem t k c2).
Proof.
  intros H. unfold getCacheItem. rewrite H.
  destruct (c2 !! k) as [item|]; [|reflexivity].
  destruct (t >? item_expiry item); reflexivity.
Qed.

(** A lookup at [later] of an entry written at [now]. *)
Lemma getCacheItem_setCacheItem (now later : Z) (k : string) (v : value) (ttl : option Z)
    (cache : gmap string cache_item) :
  getCacheItem later k (setCacheItem now k v ttl cache)
  = (if later <=? now + default default_ttl ttl
     then (v, setCacheItem now k v ttl cache)
     else (VNull, delete k cache)).
Proof.
  destruct (Z.leb_spec later (now + default default_ttl ttl)) as [Hle|Hgt].
  - rewrite (getCacheItem_fresh later k _ _ (setCacheItem_lookup now k v ttl cache));
      [reflexivity | simpl; lia].
  - rewrite (getCacheItem_expired later k _ _ (setCacheItem_lookup now k v ttl cache));
      [|simpl; lia].
    unfold setCacheItem. rewrite delete_insert_eq. reflexivity.
Qed.

(** X5. The cache operations are local to their key: a write under [k] and
    a lookup of [k] (even one that evicts [k]) leave the entry of every
    other key as it was, and do not change what a lookup of another key
    returns, at any time. *)
Theorem cache_operations_leave_other_keys (now t : Z) (k k' : string) (v : value)
    (ttl : option Z) (cache : gmap string cache_item) :
  k <> k' ->
  setCacheItem now k v ttl cache !! k' = cache !! k' /\
  snd (getCacheItem now k cache) !! k' = cache !! k' /\
  fst (getCacheItem t k' (setCacheItem now k v ttl cache)) = fst (getCacheItem t k' cache) /\
  fst (getCacheItem t k' (snd (getCacheItem now k cache))) = fst (getCacheItem t k' cache).
Proof.
  intros Hne.
  assert (H1 : setCacheItem now k v ttl cache !! k' = cache !! k')
    by (unfold setCacheItem; apply lookup_insert_ne; exact Hne).
  pose proof (getCacheItem_other now k k' cache Hne) as H2.
  repeat split; try assumption; apply getCacheItem_fst_lookup; assumption.
Qed.

(** Evicting the stale entry of [kpis] does not touch [trend], and writing
    [kpis] again does not change what [trend] reads. *)
Lemma cache_operations_leave_other_keys_witness :
  snd (getCacheItem 2000 "kpis" Samples.two_entries) !! "trend"
  = Samples.two_entries !! "trend" /\
  fst (getCacheItem 2000 "trend"
         (setCacheItem 2000 "kpis" VNull None Samples.two_entries))
  = VStr "rising".
Proof.
  pose proof (cache_operations_leave_other_keys 2000 2000 "kpis" "trend" VNull None
                Samples.two_entries ltac:(discriminate)) as [_ [H2 [H3 _]]].
  split; [exact H2 | rewrite H3; vm_compute; reflexivity].
Defined.

(** X6. The life of an entry. A value written at [now] is served by every
    lookup up to and including [now + ttl] (300000 ms when no [ttl] is
    given), and the lookup leaves the store as written; the first lookup
    after that returns [null] and leaves the store as if the key had never
    been written, whatever it held before. So an entry written with a
    negative [ttl] is never served, and one written with [ttl = 0] is
    served within the same millisecond only. *)
Theorem cache_entry_lifetime (now later : Z) (k : string) (v : value) (ttl : option Z)
    (cache : gmap string cache_item) :
  now <= later ->
  getCacheItem later k (setCacheItem now k v ttl cache)
  = (if later <=? now + default default_ttl ttl
     then (v, setCacheItem now k v ttl cache)
     else (VNull, delete k cache)) /\
  (forall d, ttl = Some d -> d < 0 ->
     getCacheItem later k (setCacheItem now k v ttl cache) = (VNull, delete k cache)) /\
  (ttl = Some 0 ->
     getCacheItem later k (setCacheItem now k v ttl cache)
     = if later =? now then (v, setCacheItem now k v ttl cache)
       else (VNull, delete k cache)) /\
  (ttl = None ->
     fst (getCacheItem later k (setCacheItem now k v ttl cache))
     = if later <=? now + 300000 then v else VNull).
Proof.
  intros Hle. rewrite getCacheItem_setCacheItem. repeat split.
  - intros d -> Hneg. simpl. destruct (Z.leb_spec later (now + d)); [lia | reflexivity].
  - intros ->. simpl.
    destruct (Z.leb_spec later (now + 0)), (Z.eqb_spec later now); try lia; reflexivity.
  - intros ->. simpl. unfold default_ttl.
    destruct (later <=? now + 300000); reflexivity.
Qed.

(** Written at 1000 for 5 ms: served at 1005, gone at 1006. Written with
    [ttl = -1]: not served even at once. *)
Lemma cache_entry_lifetime_witness :
  fst (getCacheItem 1005 "kpis" (setCacheItem 1000 "kpis" (VStr "cached") (Some 5) ∅))
  = VStr "cached" /\
  getCacheItem 1006 "kpis" (setCacheItem 1000 "kpis" (VStr "cached") (Some 5) ∅)
  = (VNull, ∅) /\
  getCacheItem 1000 "kpis" (setCacheItem 1000 "kpis" (VStr "cached") (Some (-1)) ∅)
  = (VNull, ∅).
Proof.
  pose proof (cache_entry_lifetime 1000 1005 "kpis" (VStr "cached") (Some 5) ∅
                ltac:(lia)) as [H1 _].
  pose proof (cache_entry_lifetime 1000 1006 "kpis" (VStr "cached") (Some 5) ∅
                ltac:(lia)) as [H2 _].
  pose proof (cache_entry_lifetime 1000 1000 "kpis" (VStr "cached") (Some (-1)) ∅
                ltac:(lia)) as [_ [H3 _]].
  split; [|split].
  - rewrite H1. reflexivity.
  - rewrite H2. reflexivity.
  - rewrite (H3 (-1) eq_refl ltac:(lia)). reflexivity.
Defined.

(** X7. The last write wins. A second write under the same key replaces
    the first one entirely, value and expiry: the store is the one a single
    write would have produced, so a shorter [ttl] shortens the life of the
    entry and a longer one extends it, and nothing of the first write can
    be read afterwards. *)
Theorem cache_last_write_wins (t1 t2 later : Z) (k : string) (v1 v2 : value)
    (ttl1 ttl2 : option Z) (cache : gmap string cache_item) :
  setCacheItem t2 k v2 ttl2 (setCacheItem t1 k v1 ttl1 cache)
    = setCacheItem t2 k v2 ttl2 cache /\
  getCacheItem later k (setCacheItem t2 k v2 ttl2 (setCacheItem t1 k v1 ttl1 cache))
    = (if later <=? t2 + default default_ttl ttl2
       then (v2, setCacheItem t2 k v2 ttl2 cache)
       else (VNull, delete k cache)).
Proof.
  assert (H : setCacheItem t2 k v2 ttl2 (setCacheItem t1 k v1 ttl1 cache)
              = setCacheItem t2 k v2 ttl2 cache)
    by (unfold setCacheItem; apply insert_insert_eq).
  split; [exact H|]. rewrite H. apply getCacheItem_setCacheItem.
Qed.

(** X8. A lookup never adds to the store, and repeating it at the same
    instant changes nothing more: the second lookup returns what the first
    one returned and leaves the store the first one left. *)
Theorem getCacheItem_idempotent (t : Z) (k : string) (cache : gmap string cache_item) :
  getCacheItem t k (snd (getCacheItem t k cache)) = getCacheItem t k cache /\
  snd (getCacheItem t k cache) ⊆ cache.
Proof.
  unfold getCacheItem at 2 3 4.
  destruct (cache !! k) as [item|] eqn:Hk.
  - destruct (Z.gtb_spec t (item_expiry item)) as [Hgt|Hle]; simpl.
    + split; [|apply delete_subseteq].
      apply getCacheItem_absent, lookup_delete_eq.
    + split; [|reflexivity]. apply getCacheItem_fresh; [exact Hk | lia].
  - simpl. split; [|reflexivity]. apply getCacheItem_absent; exact Hk.
Qed.

(** X9. The number of entries. A write under a new key adds one entry, a
    write under a key already present adds none (even when the entry there
    has expired: expired entries stay until they are looked up); a lookup
    never adds an entry, and removes exactly one when it finds an expired
    entry. *)
Theorem cache_size (now : Z) (k : string) (v : value) (ttl : option Z)
    (cache : gmap string cache_item) :
  (cache !! k = None -> size (setCacheItem now k v ttl cache) = S (size cache)) /\
  (is_Some (cache !! k) -> size (setCacheItem now k v ttl cache) = size cache) /\
  (size (snd (getCacheItem now k cache)) <= size cache)%nat /\
  (forall item, cache !! k = Some item -> item_expiry item < now ->
     S (size (snd (getCacheItem now k cache))) = size cache).
Proof.
  repeat split.
  - intros H. unfold setCacheItem. apply map_size_insert_None; exact H.
  - intros H. unfold setCacheItem. apply map_size_insert_Some; exact H.
  - unfold getCacheItem. destruct (cache !! k) as [item|] eqn:Hk; [|reflexivity].
    destruct (now >? item_expiry item); simpl; [|reflexivity].
    rewrite map_size_delete, Hk. lia.
  - intros item H Hlt. rewrite (getCacheItem_expired now k item cache H Hlt). simpl.
    rewrite map_size_delete, H.
    assert (size cache <> 0%nat) by (apply (map_size_ne_0_lookup_2 _ k); eauto).
    lia.
Qed.

(** Two entries; a third key makes three, rewriting the stale [kpis] keeps
    two, looking the stale [kpis] up leaves one. *)
Lemma cache_size_witness :
  size (setCacheItem 2000 "beds" VNull None Samples.two_entries) = 3%nat /\
  size (setCacheItem 2000 "kpis" VNull None Samples.two_entries) = 2%nat /\
  size (snd (getCacheItem 2000 "kpis" Samples.two_entries)) = 1%nat.
Proof.
  pose proof (cache_size 2000 "beds" VNull None Samples.two_entries) as [H1 _].
  pose proof (cache_size 2000 "kpis" VNull None Samples.two_entries) as [_ [H2 [_ H4]]].
  split; [|split].
  - rewrite H1; reflexivity.
  - rewrite H2; [reflexivity | eexists; reflexivity].
  - apply eq_add_S. rewrite (H4 (mk_item (VStr "cached") 1005)).
    + reflexivity.
    + reflexivity.
    + simpl. lia.
Defined.

(** ** The refresh routine *)

Import Refresh.

Lemma run_acc {A : Type} (net : transport) (p : prog A) :
  forall n acc,
    run net p n acc
    = (acc ++ fst (fst (run net p n [])), snd (fst (run net p n [])), snd (run net p n [])).
Proof.
  induction p as [a|e|ev k IH|url init k IH|k IH]; intros n acc; simpl.
  - rewrite app_nil_r. reflexivity.
  - rewrite app_nil_r. reflexivity.
  - rewrite (IH n (acc ++ [Eff ev])), (IH n [Eff ev]). simpl.
    rewrite <- app_assoc. reflexivity.
  - rewrite (IH _ (S n) (acc ++ _)), (IH _ (S n) [_; _]). simpl.
    rewrite <- app_assoc. reflexivity.
  - apply IH.
Qed.

Lemma loadInitialData_returns (api : client) (page : dom) (net : transport) :
  snd (run net (loadInitialData api page) 0 []) = inr tt.
Proof.
  pose proof (loadInitialData_cases api page net) as H. cbv zeta in H.
  pose proof (f_equal snd H) as Hres. clear H. cbv beta in Hres.
  destruct (stage_ok page DashboardMetrics _);
    [destruct (stage_ok page TrainingMetrics _)|]; exact Hres.
Qed.

Lemma notifications_app (tr1 tr2 : list event) :
  notifications (tr1 ++ tr2) = notifications tr1 ++ notifications tr2.
Proof. apply omap_app. Qed.

Lemma notifications_buttons (page : dom) :
  notifications (button_before page) = [] /\ notifications (button_after page) = [].
Proof. unfold button_before, button_after. destruct (has_refresh_button page); split; reflexivity. Qed.

(** X10. [refreshDashboardData] always completes, and its own [catch] is
    never entered: [loadInitialData] handles every failure itself. Whatever
    the transport and the render functions do, a cycle is exactly: the
    button (when the page has one) disabled and labelled as refreshing, the
    events of [loadInitialData], the button enabled again, labelled
    [Refreshed] (also when the load failed) and set to go back to its label
    after 2 s. The requests and the notifications of a cycle are those of
    [loadInitialData]; [Failed to refresh data] is never shown. *)
Theorem refreshDashboardData_always_completes (api : client) (page : dom) (net : transport) :
  run net (refreshDashboardData api page) 0 [] =
  (button_before page ++ fst (fst (run net (loadInitialData api page) 0 []))
     ++ button_after page,
   snd (fst (run net (loadInitialData api page) 0 [])),
   inr tt) /\
  notifications (fst (fst (run net (refreshDashboardData api page) 0 [])))
  = notifications (fst (fst (run net (loadInitialData api page) 0 []))) /\
  ("Failed to refresh data", "error")
    ∉ notifications (fst (fst (run net (refreshDashboardData api page) 0 []))).
Proof.
  assert (H : run net (refreshDashboardData api page) 0 [] =
    (button_before page ++ fst (fst (run net (loadInitialData api page) 0 []))
       ++ button_after page,
     snd (fst (run net (loadInitialData api page) 0 [])),
     inr tt)).
  { unfold refreshDashboardData, button_before, button_after.
    destruct (has_refresh_button page).
    - repeat run_step.
      rewrite (run_acc net (loadInitialData api page)).
      rewrite loadInitialData_returns. cbv beta iota.
      repeat run_step. rewrite <- !app_assoc. reflexivity.
    - repeat run_step.
      rewrite (run_acc net (loadInitialData api page)).
      rewrite loadInitialData_returns. cbv beta iota.
      repeat run_step. rewrite app_nil_r. reflexivity. }
  assert (Hn : notifications (fst (fst (run net (refreshDashboardData api page) 0 [])))
               = notifications (fst (fst (run net (loadInitialData api page) 0 [])))).
  { rewrite H. cbn [fst snd]. rewrite !notifications_app.
    destruct (notifications_buttons page) as [-> ->]. rewrite app_nil_r. reflexivity. }
  split; [exact H|]. split; [exact Hn|]. rewrite Hn.
  pose proof (loadInitialData_cases api page net) as Hc. cbv zeta in Hc.
  pose proof (f_equal (fun t => snd (fst (fst t))) Hc) as Hshown. clear Hc.
  cbv beta in Hshown. cbn [fst snd] in Hshown. rewrite Hshown.
  destruct (stage_ok page DashboardMetrics _);
    [destruct (stage_ok page TrainingMetrics _);
       [destruct (stage_ok page ProjectionCharts _)|]|];
    cbn [fst snd]; rewrite not_elem_of_cons; (split; [discriminate | apply not_elem_of_nil]).
Qed.

(** ** Overlapping refresh cycles, under any schedule *)

Lemma at_most_refreshDashboardData (api : client) (page : dom) :
  at_most (refreshDashboardData api page) 3.
Proof.
  unfold refreshDashboardData, loadInitialData, await, showSuccessNotification,
    showErrorNotification, showNotification, effect_, render,
    getExecutiveDashboard, getTrainingCapacity, getWorkforceProjections, request.
  destruct (has_refresh_button page); cbn.
  all: repeat
    match goal with
    | |- at_most (Do _ _) _ => apply at_most_do
    | |- at_most (Await _) _ => apply at_most_await
    | |- at_most (Ret _) _ => apply at_most_ret
    | |- at_most (Throw _) _ => apply at_most_throw
    | |- at_most (AwaitFetch _ _ _) _ =>
        apply at_most_fetch; intros [?e|?r]; cbn
    | |- context [if negb (ok ?r) then _ else _] => destruct (ok r); cbn
    | |- context [match body ?r with inl _ => _ | inr _ => _ end] =>
        destruct (body r) as [?e|?payload]; cbn
    | |- context [if truthy ?v then _ else _] => destruct (truthy v); cbn
    | |- context [match render_throws ?p ?w ?v with Some _ => _ | None => _ end] =>
        destruct (render_throws p w v) as [?e|]; cbn
    end.
Qed.

Lemma advance_at_most (p : prog unit) (n : nat) :
  at_most p n ->
  forall acc, exists m,
    settled_at_most (fst (advance p acc)) m /\
    (length (requested (snd (advance p acc))) + m <= length (requested acc) + n)%nat.
Proof.
  induction 1 as [a n|e n|ev k n Hk IH|k n Hk IH|url init k n Hk IH]; intros acc; simpl.
  - exists 0%nat. split; [exact I | lia].
  - exists 0%nat. split; [exact I | lia].
  - destruct (IH (acc ++ [Eff ev])) as [m [Hm Hlen]].
    exists m. split; [exact Hm|]. rewrite requested_snoc_effect in Hlen. exact Hlen.
  - exists n. split; [exact Hk | lia].
  - exists n. split; [exact Hk|].
    rewrite requested_snoc_request, length_app. simpl. lia.
Qed.

Lemma advance_grows (p : prog unit) (acc : list event) :
  (length (requested acc) <= length (requested (snd (advance p acc))))%nat.
Proof.
  revert acc. induction p as [a|e|ev k IH|url init k IH|k IH]; intros acc; simpl;
    try lia.
  - specialize (IH (acc ++ [Eff ev])). rewrite requested_snoc_effect in IH. exact IH.
  - rewrite requested_snoc_request, length_app. simpl. lia.
Qed.

Lemma park_capped (i : nat) (s : option suspended) (tasks : list suspended)
    (debts : list nat) (d m : nat) (x : suspended) :
  Forall2 owes_at_most tasks debts ->
  tasks !! i = Some x -> debts !! i = Some d ->
  settled_at_most s m ->
  exists debts',
    Forall2 owes_at_most (park i s tasks) debts' /\
    (sum_list debts' + d <= sum_list debts + m)%nat.
Proof.
  intros HF Hx Hd Hs. destruct s as [s'|]; simpl in *.
  - exists (<[i := m]> debts). split.
    + apply Forall2_insert; assumption.
    + rewrite (sum_list_insert debts i d m Hd). lia.
  - exists (delete i debts). split.
    + apply Forall2_delete; assumption.
    + rewrite (sum_list_delete debts i d Hd). lia.
Qed.

Lemma step_capped (handler : prog unit) (c t : nat) (a : action) (st st' : loop_state) :
  at_most handler c ->
  capped c t st ->
  step handler a st = Some st' ->
  capped c (t + trigger_count a) st'.
Proof.
  intros Hc [debts [HF Hsum]] Hstep.
  destruct a as [|i o|i]; simpl in *.
  - injection Hstep as <-. simpl.
    destruct (advance_at_most handler c Hc (log st)) as [m [Hm Hlen]].
    destruct (fst (advance handler (log st))) as [s|]; simpl in *.
    + exists (debts ++ [m]). split.
      * apply Forall2_app; [exact HF | constructor; [exact Hm | constructor]].
      * rewrite sum_list_with_app. simpl. clear - Hsum Hlen. lia.
    + exists debts. rewrite app_nil_r. split; [exact HF|].
      simpl. clear - Hsum Hlen. lia.
  - destruct (pool st !! i) as [[k|k]|] eqn:Hi; try discriminate.
    injection Hstep as <-. simpl.
    destruct (Forall2_lookup_l _ _ _ _ _ HF Hi) as [d [Hd Hk]]. simpl in Hk.
    destruct (advance_at_most (k o) d (Hk o) (log st ++ [Settled o])) as [m [Hm Hlen]].
    rewrite requested_snoc_settled in Hlen.
    destruct (park_capped i _ _ _ d m _ HF Hi Hd Hm) as [debts' [HF' Hsum']].
    exists debts'. split; [exact HF'|]. simpl. clear - Hsum Hlen Hsum'. lia.
  - destruct (pool st !! i) as [[k|k]|] eqn:Hi; try discriminate.
    injection Hstep as <-. simpl.
    destruct (Forall2_lookup_l _ _ _ _ _ HF Hi) as [d [Hd Hk]]. simpl in Hk.
    destruct (advance_at_most k d Hk (log st)) as [m [Hm Hlen]].
    destruct (park_capped i _ _ _ d m _ HF Hi Hd Hm) as [debts' [HF' Hsum']].
    exists debts'. split; [exact HF'|]. simpl. clear - Hsum Hlen Hsum'. lia.
Qed.

Lemma trigger_requests_once (api : client) (page : dom) (acc : list event) :
  length (requested (snd (advance (refreshDashboardData api page) acc)))
  = S (length (requested acc)).
Proof.
  unfold refreshDashboardData. destruct (has_refresh_button page); simpl.
  - rewrite requested_snoc_request, !requested_snoc_effect, length_app. simpl. lia.
  - rewrite requested_snoc_request, !requested_snoc_effect, length_app. simpl. lia.
Qed.

Lemma step_at_least (api : client) (page : dom) (a : action) (st st' : loop_state) :
  step (refreshDashboardData api page) a st = Some st' ->
  (length (requested (log st)) + trigger_count a <= length (requested (log st')))%nat.
Proof.
  intros Hstep. destruct a as [|i o|i]; simpl in *.
  - injection Hstep as <-. simpl. rewrite trigger_requests_once. lia.
  - destruct (pool st !! i) as [[k|k]|]; try discriminate.
    injection Hstep as <-. simpl.
    pose proof (advance_grows (k o) (log st ++ [Settled o])) as H.
    rewrite requested_snoc_settled in H. lia.
  - destruct (pool st !! i) as [[k|k]|]; try discriminate.
    injection Hstep as <-. simpl.
    pose proof (advance_grows k (log st)) as H. lia.
Qed.

Lemma exec_bounds (api : client) (page : dom) (sched : list action) :
  forall t st st',
    capped 3 t st ->
    exec (refreshDashboardData api page) sched st = Some st' ->
    capped 3 (t + triggers sched) st' /\
    (length (requested (log st)) + triggers sched <= length (requested (log st')))%nat.
Proof.
  induction sched as [|a sched IH]; intros t st st' Hcap Hexec; simpl in *.
  - injection Hexec as <-. unfold triggers. simpl. rewrite !Nat.add_0_r. split; [exact Hcap | lia].
  - destruct (step (refreshDashboardData api page) a st) as [st1|] eqn:Hstep; [|discriminate].
    pose proof (step_capped _ 3 t a st st1 (at_most_refreshDashboardData api page) Hcap Hstep)
      as Hcap1.
    pose proof (step_at_least api page a st st1 Hstep) as Hlow.
    destruct (IH _ _ _ Hcap1 Hexec) as [Hcap' Hlow'].
    assert (Ht : triggers (a :: sched) = (trigger_count a + triggers sched)%nat)
      by (unfold triggers; destruct a; reflexivity).
    rewrite Ht. split.
    + rewrite Nat.add_assoc. exact Hcap'.
    + lia.
Qed.

(** X11. Overlapping cycles, whatever the schedule and whatever the
    responses: as long as the loop accepts the schedule, the number of
    requests made so far lies between the number of times the refresh
    handler was called and three times that number. Every call starts its
    first request at once, and no call ever makes more than three. *)
Theorem refresh_requests_bounded (api : client) (page : dom) (sched : list action)
    (st : loop_state) :
  exec (refreshDashboardData api page) sched idle = Some st ->
  (triggers sched <= length (requested (log st)) <= 3 * triggers sched)%nat.
Proof.
  intros Hexec.
  assert (Hidle : capped 3 0 idle).
  { exists []. split; [constructor | simpl; lia]. }
  destruct (exec_bounds api page sched 0%nat idle st Hidle Hexec) as [[debts [_ Hup]] Hlow].
  simpl in *. lia.
Qed.

(** Two calls against a network that is down: between 2 and 6 requests. *)
Lemma refresh_requests_bounded_witness :
  exists st,
    exec (refreshDashboardData demo_api demo_page) overlapping_failures idle = Some st /\
    (2 <= length (requested (log st)) <= 6)%nat.
Proof.
  destruct (exec (refreshDashboardData demo_api demo_page) overlapping_failures idle)
    as [st|] eqn:Hexec; [|vm_compute in Hexec; discriminate Hexec].
  exists st. split; [reflexivity|].
  exact (refresh_requests_bounded demo_api demo_page overlapping_failures st Hexec).
Defined.



(** ** The accessors of APIClient *)






(** X14. [if (regionId)] treats the region id 0 like a missing one: with
    [regionId = 0], [getExecutiveDashboard] and [getTrainingCapacity] send
    the very request they send without a region, and no [region_id]
    parameter; with any other id the parameter comes first in the query
    string. *)
Theorem region_zero_is_no_region (this : client) (language : string) (years r : Z) :
  getExecutiveDashboard this (Some 0) language = getExecutiveDashboard this None language /\
  getTrainingCapacity this (Some 0) years = getTrainingCapacity this None years /\
  (r <> 0 ->
   getExecutiveDashboard this (Some r) "en"
   = request this ("/reports/executive-dashboard?region_id=" +:+ show_int r
                   +:+ "&language=en") ∅ /\
   getTrainingCapacity this (Some r) years
   = request this ("/training/capacity?region_id=" +:+ show_int r
                   +:+ "&years=" +:+ show_int years) ∅).
Proof.
  split; [reflexivity|]. split; [reflexivity|].
  intros Hr. unfold getExecutiveDashboard, getTrainingCapacity, region_given.
  destruct (Z.eqb_spec r 0) as [|_]; [contradiction|].
  simpl. unfold URLSearchParams_toString. simpl.
  split; reflexivity.
Qed.

Lemma region_zero_is_no_region_witness :
  getExecutiveDashboard demo_api (Some 7) "en"
  = request demo_api "/reports/executive-dashboard?region_id=7&language=en" ∅ /\
  getTrainingCapacity demo_api (Some 0) 5 = request demo_api "/training/capacity?years=5" ∅.
Proof.
  pose proof (region_zero_is_no_region demo_api "en" 5 7) as [_ [H2 H3]].
  split.
  - exact (proj1 (H3 ltac:(discriminate))).
  - rewrite H2. reflexivity.
Defined.

(** ** Dark mode *)

Lemma toggle_click_spec (st : Theme.theme_state) :
  Theme.toggle_click st
  = Theme.mk_theme (negb (Theme.light_mode st))
      (<["healthcare-theme" := Theme.theme_name (negb (Theme.light_mode st))]>
         (Theme.storage st)).
Proof. destruct st as [[] store]; reflexivity. Qed.

(** X15. [n] clicks on the theme toggle: the page is in light mode exactly
    when it was and [n] is even, or it was not and [n] is odd; after at
    least one click the theme saved in [localStorage] is the one shown; no
    other key of [localStorage] is touched. *)
Theorem theme_toggle_parity (n : nat) (st : Theme.theme_state) :
  Theme.light_mode (Nat.iter n Theme.toggle_click st)
  = xorb (Nat.odd n) (Theme.light_mode st) /\
  ((0 < n)%nat ->
   Theme.storage (Nat.iter n Theme.toggle_click st) !! "healthcare-theme"
   = Some (Theme.theme_name (Theme.light_mode (Nat.iter n Theme.toggle_click st)))) /\
  (forall k, k <> "healthcare-theme" ->
   Theme.storage (Nat.iter n Theme.toggle_click st) !! k = Theme.storage st !! k).
Proof.
  induction n as [|n [IH1 [IH2 IH3]]].
  - simpl. split; [destruct (Theme.light_mode st); reflexivity|].
    split; [intros H; lia | reflexivity].
  - rewrite Nat.iter_succ, toggle_click_spec. simpl Theme.light_mode. simpl Theme.storage.
    repeat split.
    + rewrite IH1, Nat.odd_succ, <- Nat.negb_odd.
      destruct (Nat.odd n), (Theme.light_mode st); reflexivity.
    + intros _. apply lookup_insert_eq.
    + intros k Hk. rewrite lookup_insert_ne by congruence. apply IH3, Hk.
Qed.

(** Three clicks on a dark page with an empty [localStorage]. *)
Lemma theme_toggle_parity_witness :
  Theme.light_mode (Nat.iter 3 Theme.toggle_click (Theme.mk_theme false ∅)) = true /\
  Theme.storage (Nat.iter 3 Theme.toggle_click (Theme.mk_theme false ∅))
    !! "healthcare-theme" = Some "light" /\
  Theme.storage (Nat.iter 3 Theme.toggle_click (Theme.mk_theme false ∅))
    !! "healthcare-language" = None.
Proof.
  pose proof (theme_toggle_parity 3 (Theme.mk_theme false ∅)) as [H1 [H2 H3]].
  split; [exact H1|]. split.
  - rewrite (H2 ltac:(lia)), H1. reflexivity.
  - rewrite (H3 "healthcare-language" ltac:(discriminate)). reflexivity.
Defined.

(** X16. On load, [setupDarkMode] puts the page in light mode exactly when
    [localStorage] holds the exact string [light] under [healthcare-theme];
    a missing, empty or any other value gives dark mode. So the theme
    chosen by a click survives a reload, whatever class the fresh page
    starts with. On a page without the toggle element nothing is applied. *)
Theorem setupDarkMode_restores_saved_theme (st : Theme.theme_state) (fresh : bool) :
  (Theme.light_mode (Theme.setupDarkMode true st) = true
   <-> Theme.storage st !! "healthcare-theme" = Some "light") /\
  Theme.storage (Theme.setupDarkMode true st) = Theme.storage st /\
  Theme.light_mode
    (Theme.setupDarkMode true (Theme.mk_theme fresh (Theme.storage (Theme.toggle_click st))))
  = Theme.light_mode (Theme.toggle_click st) /\
  Theme.setupDarkMode false st = st.
Proof.
  split; [|split; [|split; [|reflexivity]]].
  - unfold Theme.setupDarkMode, LocalStorage.getItem_or, Theme.applyTheme. cbn [negb].
    destruct (Theme.storage st !! "healthcare-theme") as [s|]; cbv zeta.
    + destruct (String.eqb_spec s "") as [->|Hne].
      * simpl. split; discriminate.
      * destruct (String.eqb_spec s "light") as [->|Hl]; simpl.
        -- split; reflexivity.
        -- split; [discriminate | congruence].
    + simpl. split; discriminate.
  - unfold Theme.setupDarkMode, Theme.applyTheme. cbn [negb]. cbv zeta.
    destruct (String.eqb _ "light"); reflexivity.
  - rewrite toggle_click_spec. unfold Theme.setupDarkMode, LocalStorage.getItem_or. simpl.
    rewrite lookup_insert_eq. destruct (Theme.light_mode st); reflexivity.
Qed.

(** ** Navigation *)

Lemma substring_all (s : string) : String.substring 0 (String.length s) s = s.
Proof. induction s as [|c s IH]; simpl; [reflexivity | rewrite IH; reflexivity]. Qed.

Lemma substring_append_r (p s : string) :
  String.substring (String.length p) (String.length s) (p +:+ s) = s.
Proof. induction p as [|c p IH]; simpl; [apply substring_all | exact IH]. Qed.

Lemma length_append (p s : string) :
  String.length (p +:+ s) = (String.length p + String.length s)%nat.
Proof. induction p as [|c p IH]; simpl; [reflexivity | rewrite IH; reflexivity]. Qed.

Lemma substring_split (n : nat) :
  forall (s : string) (m : nat), (n + m = String.length s)%nat ->
  s = String.substring 0 n s +:+ String.substring n m s.
Proof.
  induction n as [|n IH]; intros s m H.
  - simpl in H. subst m. rewrite substring_all. destruct s; reflexivity.
  - destruct s as [|c s]; simpl in H; [discriminate|].
    change (String c s = String c (String.substring 0 n s +:+ String.substring n m s)).
    f_equal. apply IH. lia.
Qed.

(** [s.endsWith(suffix)] holds exactly when [s] is some prefix followed by
    [suffix]. *)
Lemma endsWith_spec (s suffix : string) :
  Navigation.endsWith s suffix = true <-> exists prefix, s = prefix +:+ suffix.
Proof.
  unfold Navigation.endsWith. split.
  - intros H. apply andb_true_iff in H as [Hle Heq].
    apply Nat.leb_le in Hle. apply String.eqb_eq in Heq.
    exists (String.substring 0 (String.length s - String.length suffix) s).
    pose proof (substring_split (String.length s - String.length suffix) s
                  (String.length suffix) ltac:(lia)) as Hs.
    rewrite Heq in Hs. exact Hs.
  - intros [prefix ->]. rewrite length_append. apply andb_true_iff. split.
    + apply Nat.leb_le. lia.
    + replace (String.length prefix + String.length suffix - String.length suffix)%nat
        with (String.length prefix) by lia.
      rewrite substring_append_r. apply String.eqb_refl.
Qed.

(** X17. [setActiveNavLink] keeps the links and their targets and decides
    the class [active] of each link afresh, whatever it was before: a link
    is active afterwards exactly when it has a non-empty [href] and the
    current path ends with it. The equality test of the source adds
    nothing to the [endsWith] test; a link without [href] or with an empty
    one is never active; running the function again changes nothing. *)
Theorem setActiveNavLink_spec (currentPath : string) (navLinks : list Navigation.nav_link) :
  List.map Navigation.href (Navigation.setActiveNavLink currentPath navLinks)
  = List.map Navigation.href navLinks /\
  (forall i link,
     Navigation.setActiveNavLink currentPath navLinks !! i = Some link ->
     (Navigation.active link = true
      <-> exists h prefix,
            Navigation.href link = Some h /\ h <> "" /\ currentPath = prefix +:+ h)) /\
  Navigation.setActiveNavLink currentPath (Navigation.setActiveNavLink currentPath navLinks)
  = Navigation.setActiveNavLink currentPath navLinks.
Proof.
  unfold Navigation.setActiveNavLink. split; [|split].
  - rewrite List.map_map. reflexivity.
  - intros i link Hi. rewrite list_lookup_fmap in Hi.
    destruct (navLinks !! i) as [l|]; [|discriminate].
    injection Hi as <-. simpl. destruct (Navigation.href l) as [h|].
    + rewrite andb_true_iff, negb_true_iff, orb_true_iff, String.eqb_neq, endsWith_spec.
      split.
      * intros [Hne [Heq|[prefix Hp]]].
        -- apply String.eqb_eq in Heq. exists h, "". subst. repeat split; assumption.
        -- exists h, prefix. repeat split; assumption.
      * intros [h' [prefix [Hh [Hne Hp]]]]. injection Hh as <-.
        split; [exact Hne | right; exists prefix; exact Hp].
    + split; [discriminate | intros [h [prefix [Hh _]]]; discriminate].
  - rewrite List.map_map. reflexivity.
Qed.

(** On [/pages/reports.html], of the links to [reports.html], to
    [index.html] and to nothing, only the first is active, whatever they
    were before. *)
Lemma setActiveNavLink_spec_witness :
  Navigation.active
    (default (Navigation.mk_link None false)
       (Navigation.setActiveNavLink "/pages/reports.html" Samples.nav_bar !! 0%nat))
  = true /\
  List.map Navigation.active
    (Navigation.setActiveNavLink "/pages/reports.html" Samples.nav_bar)
  = [true; false; false].
Proof.
  pose proof (setActiveNavLink_spec "/pages/reports.html" Samples.nav_bar) as [_ [H _]].
  split; [|reflexivity].
  apply (H 0%nat (Navigation.mk_link (Some "reports.html") true) eq_refl).
  exists "reports.html", "/pages/". repeat split. discriminate.
Defined.

(** ** Dropdowns *)

Lemma language_index_lookup (ws : list Dropdowns.widget) (i : nat) :
  Dropdowns.language_index ws = Some i -> is_Some (ws !! i).
Proof.
  revert i. induction ws as [|w ws IH]; intros i H; simpl in H; [discriminate|].
  destruct (Dropdowns.language_id w).
  - injection H as <-. eexists. reflexivity.
  - destruct (Dropdowns.language_index ws) as [j|]; [|discriminate].
    injection H as <-. simpl. apply IH. reflexivity.
Qed.

(** The first half of the listener changes at most the element found by
    [getElementById], and only its class [show]. *)
Lemma language_half (has_toggle : bool) (e : Dropdowns.click) (ws : list Dropdowns.widget) :
  exists f : Dropdowns.widget -> Dropdowns.widget,
    (forall w, Dropdowns.dropdown_class (f w) = Dropdowns.dropdown_class w /\
               Dropdowns.language_id (f w) = Dropdowns.language_id w) /\
    (match Dropdowns.language_index ws with
     | Some i =>
         if has_toggle then
           if Dropdowns.on_toggle e
           then alter (fun w => Dropdowns.set_show (negb (Dropdowns.show w)) w) i ws
           else if negb (Dropdowns.in_language e) then alter (Dropdowns.set_show false) i ws
           else ws
         else ws
     | None => ws
     end)
    = match Dropdowns.language_index ws with
      | Some i => alter f i ws
      | None => ws
      end.
Proof.
  destruct (Dropdowns.language_index ws) as [i|].
  - destruct has_toggle; [destruct (Dropdowns.on_toggle e);
                          [|destruct (Dropdowns.in_language e)]|]; simpl.
    + eexists. split; [|reflexivity]. intros w. split; reflexivity.
    + exists id. split; [intros w; split; reflexivity|].
      symmetry. apply list_alter_id. reflexivity.
    + eexists. split; [|reflexivity]. intros w. split; reflexivity.
    + exists id. split; [intros w; split; reflexivity|].
      symmetry. apply list_alter_id. reflexivity.
  - exists id. split; [intros w; split; reflexivity | reflexivity].
Qed.

(** X24. The click listener of [setupDropdowns], for any page and any
    click. It keeps the elements, their class [dropdown] and their ids.
    After the click every element of class [dropdown] that is open
    contains the click target, so a click outside all of them closes them
    all. The only element a click can open is the language dropdown: every
    other element that is open afterwards was open before. And when the
    language dropdown itself carries the class [dropdown] and does not
    contain the toggle, a click on the toggle leaves it closed, whatever
    its state was: the second half of the listener closes what the first
    half has just opened. *)
Theorem dropdown_click_spec (has_toggle : bool) (e : Dropdowns.click)
    (ws : list Dropdowns.widget) :
  length (Dropdowns.on_click has_toggle e ws) = length ws /\
  (forall i w',
     Dropdowns.on_click has_toggle e ws !! i = Some w' ->
     Dropdowns.dropdown_class w' = true -> Dropdowns.show w' = true ->
     Dropdowns.inside e i = true) /\
  (forall i w w',
     ws !! i = Some w ->
     Dropdowns.on_click has_toggle e ws !! i = Some w' ->
     Dropdowns.dropdown_class w' = Dropdowns.dropdown_class w /\
     Dropdowns.language_id w' = Dropdowns.language_id w /\
     (Dropdowns.language_index ws <> Some i ->
      Dropdowns.show w' = true -> Dropdowns.show w = true)) /\
  (forall i w,
     Dropdowns.language_index ws = Some i -> ws !! i = Some w ->
     Dropdowns.dropdown_class w = true ->
     Dropdowns.on_toggle e = true -> Dropdowns.inside e i = false ->
     Dropdowns.show <$> Dropdowns.on_click has_toggle e ws !! i = Some false).
Proof.
  unfold Dropdowns.on_click. cbv zeta.
  destruct (language_half has_toggle e ws) as [f [Hf ->]].
  set (ws1 := match Dropdowns.language_index ws with
              | Some i => alter f i ws
              | None => ws
              end).
  assert (Hlen : length ws1 = length ws).
  { unfold ws1. destruct (Dropdowns.language_index ws); [apply length_alter | reflexivity]. }
  assert (H1 : forall i w, ws !! i = Some w ->
            exists w1, ws1 !! i = Some w1 /\
              Dropdowns.dropdown_class w1 = Dropdowns.dropdown_class w /\
              Dropdowns.language_id w1 = Dropdowns.language_id w /\
              (Dropdowns.language_index ws <> Some i -> w1 = w)).
  { intros i w Hi. unfold ws1. destruct (Dropdowns.language_index ws) as [j|].
    - destruct (decide (j = i)) as [->|Hne].
      + exists (f w). rewrite list_lookup_alter_eq, Hi.
        destruct (Hf w) as [Hc Hl].
        split; [reflexivity|]. split; [exact Hc|]. split; [exact Hl|]. congruence.
      + exists w. rewrite list_lookup_alter_ne by exact Hne.
        repeat split; try assumption; reflexivity.
    - exists w. repeat split; try assumption; reflexivity. }
  split; [|split; [|split]].
  - rewrite length_imap. exact Hlen.
  - intros i w' Hi Hclass Hshow. rewrite list_lookup_imap in Hi.
    destruct (ws1 !! i) as [w1|]; [|discriminate]. simpl in Hi.
    destruct (Dropdowns.dropdown_class w1) eqn:Hc1; simpl in Hi.
    + destruct (Dropdowns.inside e i); [reflexivity|].
      simpl in Hi. injection Hi as <-. discriminate Hshow.
    + injection Hi as <-. congruence.
  - intros i w w' Hi Hi'. rewrite list_lookup_imap in Hi'.
    destruct (H1 i w Hi) as [w1 [Hw1 [Hc [Hl Hsame]]]]. rewrite Hw1 in Hi'. simpl in Hi'.
    destruct (Dropdowns.dropdown_class w1 && negb (Dropdowns.inside e i));
      injection Hi' as <-; simpl.
    + split; [exact Hc|]. split; [exact Hl|]. intros _ H. discriminate H.
    + split; [exact Hc|]. split; [exact Hl|]. intros Hne. rewrite (Hsame Hne). tauto.
  - intros i w Hlang Hi Hclass Htoggle Hout. rewrite list_lookup_imap.
    destruct (H1 i w Hi) as [w1 [Hw1 [Hc _]]]. rewrite Hw1. simpl.
    rewrite Hc, Hclass, Hout. reflexivity.
Qed.

(** A closed language menu of class [dropdown] next to its toggle, and
    another menu that is open: a click on the toggle leaves both closed. *)
Lemma dropdown_click_spec_witness :
  Dropdowns.show <$> Dropdowns.on_click true Samples.click_on_toggle Samples.menus !! 0%nat
  = Some false /\
  Dropdowns.show <$> Dropdowns.on_click true Samples.click_on_toggle Samples.menus
  = [false; false].
Proof.
  pose proof (dropdown_click_spec true Samples.click_on_toggle Samples.menus)
    as [_ [_ [_ H]]].
  split; [|reflexivity].
  exact (H 0%nat (Dropdowns.mk_widget true true false) eq_refl eq_refl eq_refl eq_refl
           eq_refl).
Defined.

(** ** The action handlers *)

Import Actions.

Ltac handler_cases :=
  cbn;
  match goal with
  | |- context [match ?net ?n ?u ?i with NetworkFailure _ => _ | Responded _ => _ end] =>
      destruct (net n u i) as [?e|?r]; cbn; [repeat split|];
      destruct (ok r); cbn; [|repeat split];
      destruct (body r) as [?e|?payload]; cbn; [repeat split|];
      destruct (truthy payload); cbn; repeat split
  end.

(** X18. [generateProjection], [runScenarioAnalysis] and [generateReport]
    follow one pattern. Each asks for its endpoint exactly once (the
    projections of region 1, category 1 over 10 years; the scenarios of
    region 1, category 1; the workforce report of region 1 over 5 years in
    English) and never fails. It shows its loading notification, then its
    failure notification when the request failed, its success
    notification when the payload is truthy, and nothing more when the
    payload is falsy (a body that parses to [null], [0], [false] or the
    empty string). It opens its page in a new tab exactly when it shows
    success. *)
Theorem action_handlers_behave (api : client) (net : transport) :
  behaves net (generateProjection api) (fetch_init api ∅)
    (baseURL api +:+ "/workforce/projections/1/1?years=10")
    "Generating projections with ML algorithms..."
    "Projections generated successfully!"
    "Failed to generate projections"
    "pages/modules/projections.html" /\
  behaves net (runScenarioAnalysis api) (fetch_init api ∅)
    (baseURL api +:+ "/scenario-analysis/1/1")
    "Running Monte Carlo scenario analysis..."
    "Scenario analysis completed!"
    "Failed to run scenario analysis"
    "pages/modules/scenarios.html" /\
  behaves net (generateReport api) (fetch_init api ∅)
    (baseURL api +:+ "/reports/workforce-analysis/1?years=5&language=en")
    "Generating comprehensive analytics report..."
    "Report generated successfully!"
    "Failed to generate report"
    "pages/modules/reports.html".
Proof.
  split; [|split]; unfold behaves; cbv zeta.
  - unfold generateProjection.
    change (getWorkforceProjections api 1 1 10)
      with (request api "/workforce/projections/1/1?years=10" ∅).
    unfold verdict_of, await, request, showLoadingNotification, showSuccessNotification,
      showErrorNotification, showNotification, effect_, perform.
    handler_cases.
  - unfold runScenarioAnalysis.
    change (Accessors.getScenarioAnalysis api 1 1)
      with (request api "/scenario-analysis/1/1" ∅).
    unfold verdict_of, await, request, showLoadingNotification, showSuccessNotification,
      showErrorNotification, showNotification, effect_, perform.
    handler_cases.
  - unfold generateReport.
    change (Accessors.getWorkforceAnalysisReport api 1 5 "en")
      with (request api "/reports/workforce-analysis/1?years=5&language=en" ∅).
    unfold verdict_of, await, request, showLoadingNotification, showSuccessNotification,
      showErrorNotification, showNotification, effect_, perform.
    handler_cases.
Qed.

(** ** runAnalysis *)

Lemma trun_bind {A B : Type} (net : transport) (p : task A) (f : A -> task B) :
  forall n acc,
    trun net (tbind p f) n acc =
    match trun net p n acc with
    | (tr, m, inr a) => trun net (f a) m tr
    | (tr, m, inl e) => (tr, m, inl e)
    end.
Proof.
  induction p as [a|e|ev k IH|url init k IH|k IH]; intros n acc; simpl; auto.
Qed.

Lemma trun_try_catch {A : Type} (net : transport) (p : task A) (h : js_error -> task A) :
  forall n acc,
    trun net (ttry_catch p h) n acc =
    match trun net p n acc with
    | (tr, m, inr a) => (tr, m, inr a)
    | (tr, m, inl e) => trun net (h e) m tr
    end.
Proof.
  induction p as [a|e|ev k IH|url init k IH|k IH]; intros n acc; simpl; auto.
Qed.

Lemma silent_bind (p : task unit) (f : unit -> task unit) :
  silent p -> (forall u, silent (f u)) -> silent (tbind p f).
Proof.
  induction 1; intros Hf; simpl; [apply Hf | constructor | constructor; auto
                                 | constructor; auto]. Qed.

Lemma ends_bind (p : task unit) (f : unit -> task unit) :
  silent p -> ends (tbind p f) = ends p && ends (f tt).
Proof. induction 1 as [[]| |msg k Hk IH|msg v k Hk IH]; simpl; auto. Qed.

Lemma trun_silent (net : transport) (p : task unit) :
  silent p ->
  forall n acc, exists tr e,
    trun net p n acc = (tr, n, if ends p then inr tt else inl e) /\
    urls_requested tr = urls_requested acc /\
    notes_shown tr = notes_shown acc /\
    windows_opened tr = windows_opened acc.
Proof.
  induction 1 as [[]|e|msg k Hk IH|msg v k Hk IH]; intros n acc; simpl.
  - exists acc, (mk_error "" ""). repeat split.
  - exists acc, e. repeat split.
  - destruct (IH n (acc ++ [PEff (Core (ConsoleLog msg))])) as [tr [e [Hrun [H1 [H2 H3]]]]].
    exists tr, e. split; [exact Hrun|].
    unfold urls_requested, notes_shown, windows_opened in *.
    rewrite omap_app in H1. rewrite omap_app in H2. rewrite omap_app in H3.
    simpl in *. rewrite app_nil_r in H1, H2, H3.
    repeat split; assumption.
  - destruct (IH n (acc ++ [PEff (ConsoleLogValue msg v)])) as [tr [e [Hrun [H1 [H2 H3]]]]].
    exists tr, e. split; [exact Hrun|].
    unfold urls_requested, notes_shown, windows_opened in *.
    rewrite omap_app in H1. rewrite omap_app in H2. rewrite omap_app in H3.
    simpl in *. rewrite app_nil_r in H1, H2, H3.
    repeat split; assumption.
Qed.

Section AnalysisFacts.

Variable ToString : value -> js_error + string.

Lemma silent_loop (items : list value) (callback : value -> task unit) (ok_item : value -> bool) :
  (forall item, silent (callback item) /\ ends (callback item) = ok_item item) ->
  silent (foldr (fun item rest => callback item;; rest) (TRet tt) items) /\
  ends (foldr (fun item rest => callback item;; rest) (TRet tt) items) = forallb ok_item items.
Proof.
  intros Hcb. induction items as [|item items [IH1 IH2]]; simpl.
  - split; [constructor | reflexivity].
  - destruct (Hcb item) as [Hs He]. split.
    + apply silent_bind; [exact Hs | intros _; exact IH1].
    + unfold mbind, task_bind in *. rewrite (ends_bind _ _ Hs), He, IH2. reflexivity.
Qed.

Lemma show_recommendation_silent (rec : value) :
  silent (show_recommendation ToString rec) /\
  ends (show_recommendation ToString rec) = renders ToString rec.
Proof.
  unfold show_recommendation, renders. destruct (ToString rec); simpl.
  - split; [constructor | reflexivity].
  - split; [repeat constructor | reflexivity].
Qed.

Lemma forEach_recommendations (recs : value) :
  silent (forEach recs (show_recommendation ToString)) /\
  ends (forEach recs (show_recommendation ToString))
  = match recs with VArr items => forallb (renders ToString) items | _ => false end.
Proof.
  destruct recs; simpl; try (split; [constructor | reflexivity]).
  apply silent_loop, show_recommendation_silent.
Qed.

Lemma read_own (gap : value) (name : string) :
  match gap with VUndefined | VNull => False | _ => True end ->
  read gap name = inr (own gap name).
Proof. destruct gap; simpl; intros H; try contradiction; reflexivity. Qed.

Lemma show_gap_silent (gap : value) :
  silent (show_gap ToString gap) /\ ends (show_gap ToString gap) = gap_ok ToString gap.
Proof.
  assert (Hdead : match gap with VUndefined | VNull => False | _ => True end \/
                  (gap = VUndefined \/ gap = VNull))
    by (destruct gap; simpl; auto).
  destruct Hdead as [Hlive | [-> | ->]];
    [|split; [constructor | reflexivity]|split; [constructor | reflexivity]].
  assert (Hok : gap_ok ToString gap
                = renders ToString (own gap "year") && renders ToString (own gap "severity") &&
                  renders ToString (own gap "gap") &&
                  renders ToString (own gap "gap_percentage") &&
                  match own gap "recommendations" with
                  | VArr recs => forallb (renders ToString) recs
                  | _ => false
                  end)
    by (destruct gap; simpl in Hlive; try contradiction; reflexivity).
  rewrite Hok. clear Hok.
  unfold show_gap, interpolate, renders.
  rewrite !(read_own gap _ Hlive). simpl.
  destruct (ToString (own gap "year")); simpl; [split; [constructor | reflexivity]|].
  destruct (ToString (own gap "severity")); simpl; [split; [constructor | reflexivity]|].
  destruct (ToString (own gap "gap")); simpl; [split; [constructor | reflexivity]|].
  destruct (ToString (own gap "gap_percentage")); simpl; [split; [constructor | reflexivity]|].
  destruct (forEach_recommendations (own gap "recommendations")) as [H1 H2].
  split; [constructor; exact H1 | exact H2].
Qed.

Lemma showAnalysisResults_silent (gapAnalysis : value) :
  silent (showAnalysisResults ToString gapAnalysis) /\
  ends (showAnalysisResults ToString gapAnalysis) = gaps_ok ToString gapAnalysis.
Proof.
  unfold showAnalysisResults, gaps_ok. simpl.
  destruct gapAnalysis; simpl; try (split; [repeat constructor | reflexivity]).
  destruct (silent_loop items (show_gap ToString) (gap_ok ToString) show_gap_silent)
    as [H1 H2].
  split; [constructor; exact H1 | exact H2].
Qed.
End AnalysisFacts.

Lemma trun_mbind {A B : Type} (net : transport) (p : task A) (f : A -> task B)
    (n : nat) (acc : list page_event) :
  trun net (p ≫= f) n acc =
  match trun net p n acc with
  | (tr, m, inr a) => trun net (f a) m tr
  | (tr, m, inl e) => (tr, m, inl e)
  end.
Proof. apply trun_bind. Qed.

Lemma trun_perform (net : transport) (ev : page_effect) (n : nat) (acc : list page_event) :
  trun net (perform ev) n acc = (acc ++ [PEff ev], n, inr tt).
Proof. reflexivity. Qed.

Lemma trun_lift_notify (net : transport) (message type : string) (n : nat)
    (acc : list page_event) :
  trun net (lift (showNotification message type)) n acc
  = (acc ++ [PEff (Core (ShowNotification message type 3000))], n, inr tt).
Proof. reflexivity. Qed.

Lemma trun_lift_request (net : transport) (this : client) (endpoint : string)
    (n : nat) (acc : list page_event) :
  exists tr,
    trun net (lift (await (request this endpoint ∅))) n acc
    = (tr, S n,
       match net n (baseURL this +:+ endpoint) (fetch_init this ∅) with
       | NetworkFailure e => inl e
       | Responded r =>
           if ok r then body r
           else inl (new_Error ("HTTP " +:+ show_int (status r) +:+ ": " +:+ statusText r))
       end) /\
    urls_requested tr = urls_requested acc ++ [baseURL this +:+ endpoint] /\
    notes_shown tr = notes_shown acc /\
    windows_opened tr = windows_opened acc.
Proof.
  unfold await, request; cbn.
  unfold urls_requested, notes_shown, windows_opened.
  destruct (net n _ _) as [e|r]; cbn.
  - eexists. split; [reflexivity|]. repeat rewrite omap_app. simpl.
    rewrite ?app_nil_r. repeat split.
  - destruct (ok r); cbn; [destruct (body r) as [e|v]; cbn|];
      (eexists; split; [reflexivity|]); repeat rewrite omap_app; simpl;
      rewrite ?app_nil_r; repeat split.
Qed.

Lemma truthy_read (v : value) (name : string) :
  truthy v = true -> read v name = inr (own v name).
Proof. intros H. apply read_own. destruct v; simpl in *; try discriminate; exact I. Qed.

Lemma observers_app (tr1 tr2 : list page_event) :
  urls_requested (tr1 ++ tr2) = urls_requested tr1 ++ urls_requested tr2 /\
  notes_shown (tr1 ++ tr2) = notes_shown tr1 ++ notes_shown tr2 /\
  windows_opened (tr1 ++ tr2) = windows_opened tr1 ++ windows_opened tr2.
Proof. unfold urls_requested, notes_shown, windows_opened. repeat split; apply omap_app. Qed.

Ltac observe :=
  cbn [fst snd];
  repeat match goal with
         | |- context [urls_requested (?a ++ ?b)] =>
             rewrite (proj1 (observers_app a b))
         | |- context [notes_shown (?a ++ ?b)] =>
             rewrite (proj1 (proj2 (observers_app a b)))
         | |- context [windows_opened (?a ++ ?b)] =>
             rewrite (proj2 (proj2 (observers_app a b)))
         | |- context [urls_requested (?x :: ?l)] =>
             let t := eval cbn in (urls_requested (x :: l)) in
             change (urls_requested (x :: l)) with t
         | |- context [notes_shown (?x :: ?l)] =>
             let t := eval cbn in (notes_shown (x :: l)) in
             change (notes_shown (x :: l)) with t
         | |- context [windows_opened (?x :: ?l)] =>
             let t := eval cbn in (windows_opened (x :: l)) in
             change (windows_opened (x :: l)) with t
         end;
  cbn [fst snd]; rewrite ?app_nil_r.

(** X19. [runAnalysis] asks once for the projections of region 1,
    category 1 over 5 years, shows its loading notification, never fails
    and never opens a page. It goes on to the results only when the payload
    and its [gap_analysis] are both truthy; otherwise it ends without any
    further notification. It then shows the success notification exactly
    when [showAnalysisResults] gets through the payload: [gap_analysis] is
    an array, no entry of it is [null], the four fields of each entry
    render, and [recommendations] of each entry is an array of values that
    render. A payload of any other shape (a [gap_analysis] that is an
    object, an entry without [recommendations]) ends in the failure
    notification, like a failed request. *)
Theorem runAnalysis_outcomes (ToString : value -> js_error + string) (api : client)
    (net : transport) :
  let url := baseURL api +:+ "/workforce/projections/1/1?years=5" in
  let r := trun net (runAnalysis api ToString) 0 [] in
  urls_requested (fst (fst r)) = [url] /\
  snd r = inr tt /\
  windows_opened (fst (fst r)) = [] /\
  notes_shown (fst (fst r))
  = ("Analyzing workforce gaps with AI...", "loading") ::
    match net 0%nat url (fetch_init api ∅) with
    | NetworkFailure _ => [("Failed to run analysis", "error")]
    | Responded resp =>
        if ok resp then
          match body resp with
          | inl _ => [("Failed to run analysis", "error")]
          | inr analysis =>
              if truthy analysis && truthy (own analysis "gap_analysis") then
                if gaps_ok ToString (own analysis "gap_analysis")
                then [("Gap analysis completed!", "success")]
                else [("Failed to run analysis", "error")]
              else []
          end
        else [("Failed to run analysis", "error")]
    end.
Proof.
  cbv zeta. unfold runAnalysis.
  change (getWorkforceProjections api 1 1 5)
    with (request api "/workforce/projections/1/1?years=5" ∅).
  unfold showLoadingNotification, showSuccessNotification, showErrorNotification.
  rewrite trun_try_catch, trun_mbind, trun_perform. cbv beta iota.
  rewrite trun_mbind, trun_perform. cbv beta iota.
  rewrite trun_mbind.
  match goal with |- context [trun net (lift (await (request api ?ep ∅))) ?n ?acc] =>
    destruct (trun_lift_request net api ep n acc) as [tr [Hrun [Hu [Hn Hw]]]]
  end.
  rewrite Hrun. clear Hrun. cbn in Hu, Hn, Hw.
  assert (Hfail : forall e tr',
    urls_requested tr' = urls_requested tr -> notes_shown tr' = notes_shown tr ->
    windows_opened tr' = windows_opened tr ->
    let r := trun net
               (perform (Core (ConsoleError "❌ Analysis failed:" e));;
                lift (showNotification "Failed to run analysis" "error")) 1 tr' in
    urls_requested (fst (fst r))
      = [baseURL api +:+ "/workforce/projections/1/1?years=5"] /\
    snd r = inr tt /\ windows_opened (fst (fst r)) = [] /\
    notes_shown (fst (fst r))
      = [("Analyzing workforce gaps with AI...", "loading");
         ("Failed to run analysis", "error")]).
  { intros e tr' E1 E2 E3. cbv zeta. rewrite trun_mbind, trun_perform. cbv beta iota.
    rewrite trun_lift_notify. observe. rewrite E1, E2, E3, Hu, Hn, Hw. repeat split. }
  destruct (net 0%nat _ _) as [e|resp]; cbv beta iota; [apply Hfail; reflexivity|].
  destruct (ok resp); cbv beta iota; [|apply Hfail; reflexivity].
  destruct (body resp) as [e|analysis]; cbv beta iota; [apply Hfail; reflexivity|].
  rewrite trun_mbind.
  destruct (truthy analysis) eqn:Hta; cbn [andb].
  - rewrite (truthy_read analysis _ Hta). cbn [attempt trun]. cbv beta iota.
    destruct (truthy (own analysis "gap_analysis")).
    + set (ga := own analysis "gap_analysis").
      destruct (showAnalysisResults_silent ToString ga) as [Hs He].
      rewrite trun_mbind, trun_perform. cbv beta iota. rewrite trun_mbind.
      destruct (trun_silent net _ Hs 1%nat
                  (tr ++ [PEff (ConsoleLogValue "📈 Gap analysis results:" ga)]))
        as [tr' [e [Hrun' [Hu' [Hn' Hw']]]]].
      rewrite Hrun', He. clear Hrun'.
      revert Hu' Hn' Hw'. observe. intros Hu' Hn' Hw'.
      destruct (gaps_ok ToString ga); cbv beta iota.
      * rewrite trun_lift_notify. observe. rewrite Hu', Hn', Hw', Hu, Hn, Hw. repeat split.
      * apply Hfail; assumption.
    + cbn [trun fst snd]. rewrite Hu, Hn, Hw. repeat split.
  - cbn [trun]. cbv beta iota. rewrite Hta. cbn [trun fst snd].
    rewrite Hu, Hn, Hw. repeat split.
Qed.

(** ** LanguageManager *)

Import LanguageManager.

Lemma en_table_nonempty : map_Forall (fun _ s => String.eqb s "" = false) en_table.
Proof.
  unfold en_table. repeat (apply map_Forall_insert_2; [reflexivity|]).
  apply map_Forall_empty.
Qed.

Lemma ar_table_nonempty : map_Forall (fun _ s => String.eqb s "" = false) ar_table.
Proof.
  unfold ar_table. repeat (apply map_Forall_insert_2; [reflexivity|]).
  apply map_Forall_empty.
Qed.


Lemma translate_all_supported (language : string) (table : gmap string string)
    (elements : list (string * string)) :
  inherited language = false ->
  translations !! language = Some table ->
  map_Forall (fun _ s => String.eqb s "" = false) table ->
  plain_keys elements ->
  translate_all language elements = (shows table <$> elements, Some None).
Proof.
  intros Hl Ht Hne. induction 1 as [|element rest Hkey Hrest IH]; [reflexivity|].
  simpl. unfold translate_element at 1. rewrite Hl, Ht, Hkey.
  unfold shows at 1.
  destruct (table !! fst element) as [s|] eqn:Hs; simpl.
  - rewrite (Hne _ _ Hs), IH. reflexivity.
  - rewrite IH. reflexivity.
Qed.

Lemma supported_language (language : string) :
  language = "en" \/ language = "ar" ->
  inherited language = false /\
  translations !! language = Some (table_of language) /\
  map_Forall (fun _ s => String.eqb s "" = false) (table_of language).
Proof.
  intros [-> | ->]; (split; [reflexivity|]); (split; [reflexivity|]).
  - apply en_table_nonempty.
  - apply ar_table_nonempty.
Qed.

Lemma applyLanguage_supported (w : world) :
  currentLanguage w = "en" \/ currentLanguage w = "ar" ->
  plain_keys (translatable w) ->
  applyLanguage w
  = Done {| currentLanguage := currentLanguage w; saved := saved w;
            translatable := shows (table_of (currentLanguage w)) <$> translatable w;
            language_label :=
              match language_label w with
              | Some _ =>
                  Some (if String.eqb (currentLanguage w) "ar" then "العربية" else "English")
              | None => None
              end;
            dir := dir w; rtl := rtl w; shown := shown w |}.
Proof.
  intros Hl Hk. destruct (supported_language _ Hl) as [H1 [H2 H3]].
  unfold applyLanguage. rewrite (translate_all_supported _ _ _ H1 H2 H3 Hk). reflexivity.
Qed.

Lemma sample_keys_plain : plain_keys [("Gap Analysis", "Gap Analysis"); ("Beds", "Beds")].
Proof. repeat constructor. Qed.






(** X22. A reload with Arabic saved: [init] translates the page to Arabic
    and sets the label, but does not touch the direction of the document
    nor the class [rtl]: only [switchLanguage] sets them. And since the
    manager is already on [ar], asking for Arabic again does nothing, so
    the page stays in the direction it was loaded with. *)
Theorem init_leaves_direction (w : world) :
  saved w !! "healthcare-language" = Some "ar" ->
  plain_keys (translatable w) ->
  exists w',
    init w = Done w' /\
    currentLanguage w' = "ar" /\
    translatable w' = shows ar_table <$> translatable w /\
    dir w' = dir w /\ rtl w' = rtl w /\
    switchLanguage "ar" w' = Done w'.
Proof.
  intros Hsaved Hk. unfold init, LocalStorage.getItem_or. rewrite Hsaved. simpl.
  rewrite applyLanguage_supported; [|right; reflexivity | exact Hk].
  eexists. split; [reflexivity|]. simpl. repeat split.
Qed.

Lemma init_leaves_direction_witness :
  exists w',
    init Samples.reloaded_arabic = Done w' /\
    translatable w' = [("Gap Analysis", "تحليل الفجوات"); ("Beds", "Beds")] /\
    dir w' = None /\ rtl w' = false.
Proof.
  destruct (init_leaves_direction Samples.reloaded_arabic eq_refl
              sample_keys_plain) as [w' [H1 [_ [H3 [H4 [H5 _]]]]]].
  exists w'. split; [exact H1|]. split; [exact H3|]. split; assumption.
Defined.



